(** * File-storage API: role, visibility and department rules

    A shallow embedding of the access rules of the file-storage service
    ([dependencies.py], [crud.py], [routers/files.py], [routers/users.py],
    [models.py], [config.py]) and the properties its specification states
    about them.

    Conventions.
    - A SQLAlchemy table is the list of its rows, in the order a query
      without [ORDER BY] returns them; [.first()] is the first row that
      satisfies the filter and [.all()] is every such row, in table order.
    - A function that raises is a function into [Result]; the routers,
      which read and write the session, live in the monad [M].
    - Integer columns are [Z]; string columns are [string]. *)

From Stdlib Require Import ZArith List String Bool Lia.
Import ListNotations.

Set Default Proof Using "Type".

Local Open Scope string_scope.
Local Open Scope Z_scope.

(** ** models.py *)

Inductive UserRole : Set := USER | MANAGER | ADMIN.

Inductive FileVisibility : Set := PRIVATE | DEPARTMENT | PUBLIC.

Definition UserRole_eqb (a b : UserRole) : bool :=
  match a, b with
  | USER, USER | MANAGER, MANAGER | ADMIN, ADMIN => true
  | _, _ => false
  end.

Definition FileVisibility_eqb (a b : FileVisibility) : bool :=
  match a, b with
  | PRIVATE, PRIVATE | DEPARTMENT, DEPARTMENT | PUBLIC, PUBLIC => true
  | _, _ => false
  end.

(** The value of a member of the string-valued enum [UserRole]. *)
Definition UserRole_value (r : UserRole) : string :=
  match r with
  | USER => "USER"
  | MANAGER => "MANAGER"
  | ADMIN => "ADMIN"
  end.

Module User.
Record t : Set := mk
  { id : Z;
    username : string;
    password_hash : string;
    role : UserRole;
    department_id : Z }.

Definition set_role (u : t) (r : UserRole) : t :=
  {| id := id u; username := username u; password_hash := password_hash u;
     role := r; department_id := department_id u |}.
End User.

Module File.
Record t : Set := mk
  { id : Z;
    owner_id : Z;
    department_id : Z;
    visibility : FileVisibility;
    file_path : string;
    filename : string;
    size : Z;
    created_at : Z;
    downloads_count : Z }.

Definition set_downloads_count (f : t) (n : Z) : t :=
  {| id := id f; owner_id := owner_id f; department_id := department_id f;
     visibility := visibility f; file_path := file_path f;
     filename := filename f; size := size f; created_at := created_at f;
     downloads_count := n |}.
End File.

(** The session: the [users] and [files] tables. *)
Record Session : Set := mkSession
  { users : list User.t;
    files : list File.t }.

Definition with_users (db : Session) (us : list User.t) : Session :=
  {| users := us; files := files db |}.

Definition with_files (db : Session) (fs : list File.t) : Session :=
  {| users := users db; files := fs |}.

(** [id] is the primary key of both tables. *)
Definition primary_key (db : Session) : Prop :=
  NoDup (map User.id (users db)) /\ NoDup (map File.id (files db)).

(** ** Exceptions and results *)

Inductive Exception : Set :=
| HTTPException (status_code : Z) (detail : string)
| NameError (name : string)
| AttributeError (class_name attr : string)
| TypeError (what : string).

Inductive Result (A : Type) : Type :=
| Ok (a : A)
| Raise (e : Exception).

Arguments Ok {A} a.
Arguments Raise {A} e.

Definition HTTP_400_BAD_REQUEST : Z := 400.
Definition HTTP_403_FORBIDDEN : Z := 403.
Definition HTTP_404_NOT_FOUND : Z := 404.
Definition HTTP_413_REQUEST_ENTITY_TOO_LARGE : Z := 413.
Definition HTTP_500_INTERNAL_SERVER_ERROR : Z := 500.

(** The monad of the routers: a computation reads and writes the session
    and returns a value or raises; what was committed before a raise stays
    committed. *)
Definition M (A : Type) : Type := Session -> Result A * Session.

Definition ret {A} (a : A) : M A := fun db => (Ok a, db).

Definition raise {A} (e : Exception) : M A := fun db => (Raise e, db).

Definition bind {A B} (c : M A) (k : A -> M B) : M B :=
  fun db =>
    match c db with
    | (Ok a, db') => k a db'
    | (Raise e, db') => (Raise e, db')
    end.

(** A dependency or check that only reads the session. *)
Definition depends {A} (d : Session -> Result A) : M A :=
  fun db => (d db, db).

(** A [crud] function that returns a value and the session it leaves. *)
Definition commit {A} (f : Session -> A * Session) : M A :=
  fun db => let (a, db') := f db in (Ok a, db').

Declare Scope py_scope.
Delimit Scope py_scope with py.
Notation "x <- c ;; k" := (bind c (fun x => k))
  (at level 100, c at next level, right associativity) : py_scope.
Notation "c ;;; k" := (bind c (fun _ => k))
  (at level 100, right associativity) : py_scope.
Local Open Scope py_scope.

(** ** crud.py *)

Definition get_user_by_username (db : Session) (username : string)
  : option User.t :=
  find (fun u => String.eqb (User.username u) username) (users db).

Definition get_user_by_id (db : Session) (user_id : Z) : option User.t :=
  find (fun u => User.id u =? user_id) (users db).

Definition get_users_by_department (db : Session) (department_id : Z)
  : list User.t :=
  filter (fun u => User.department_id u =? department_id) (users db).

Definition get_all_users (db : Session) : list User.t := users db.

(** [user.role = new_role; db.commit()] writes the row whose primary key is
    the one of the object that was fetched. *)
Definition update_user_role (db : Session) (user_id : Z) (new_role : UserRole)
  : option User.t * Session :=
  match find (fun u => User.id u =? user_id) (users db) with
  | Some user =>
      let user' := User.set_role user new_role in
      (Some user',
       with_users db
         (map (fun r => if User.id r =? User.id user then User.set_role r new_role
                        else r) (users db)))
  | None => (None, db)
  end.

Definition get_file_by_id (db : Session) (file_id : Z) : option File.t :=
  find (fun f => File.id f =? file_id) (files db).

(** The filter of the USER branch of [get_accessible_files]:
    [or_(visibility == PUBLIC, and_(visibility == DEPARTMENT, department_id
    == current_user.department_id), and_(visibility == PRIVATE, owner_id ==
    current_user.id))]. *)
Definition user_sees (current_user : User.t) (f : File.t) : bool :=
  FileVisibility_eqb (File.visibility f) PUBLIC
  || (FileVisibility_eqb (File.visibility f) DEPARTMENT
      && (File.department_id f =? User.department_id current_user))
  || (FileVisibility_eqb (File.visibility f) PRIVATE
      && (File.owner_id f =? User.id current_user)).

Definition get_accessible_files (db : Session) (current_user : User.t)
  : list File.t :=
  if UserRole_eqb (User.role current_user) ADMIN then files db
  else if UserRole_eqb (User.role current_user) MANAGER then files db
  else filter (user_sees current_user) (files db).

Definition delete_file (db : Session) (file_id : Z) : bool * Session :=
  match find (fun f => File.id f =? file_id) (files db) with
  | Some file =>
      (true,
       with_files db
         (filter (fun r => negb (File.id r =? File.id file)) (files db)))
  | None => (false, db)
  end.

Definition increment_download_count (db : Session) (file_id : Z)
  : bool * Session :=
  match find (fun f => File.id f =? file_id) (files db) with
  | Some file =>
      let n := File.downloads_count file + 1 in
      (true,
       with_files db
         (map (fun r => if File.id r =? File.id file
                        then File.set_downloads_count r n else r) (files db)))
  | None => (false, db)
  end.

(** ** dependencies.py *)

Definition role_hierarchy : list (UserRole * Z) :=
  [(USER, 1); (MANAGER, 2); (ADMIN, 3)].

(** [d.get(k, default)] *)
Definition dict_get (d : list (UserRole * Z)) (k : UserRole) (default : Z) : Z :=
  match find (fun kv => UserRole_eqb (fst kv) k) d with
  | Some kv => snd kv
  | None => default
  end.

(** A member of [UserRole] inside an f-string: the name of the class and
    of the member (an interpreter older than 3.11 writes the value alone;
    the text is all that differs). *)
Definition UserRole_format (r : UserRole) : string :=
  match r with
  | USER => "UserRole.USER"
  | MANAGER => "UserRole.MANAGER"
  | ADMIN => "UserRole.ADMIN"
  end.

(** [f"Role {required_role} or higher required"] *)
Definition role_or_higher_detail (required_role : UserRole) : string :=
  "Role " ++ UserRole_format required_role ++ " or higher required".

Definition require_role_or_higher (required_role : UserRole)
  (current_user : User.t) : Result User.t :=
  if dict_get role_hierarchy (User.role current_user) 0
     <? dict_get role_hierarchy required_role 0
  then Raise (HTTPException HTTP_403_FORBIDDEN
                (role_or_higher_detail required_role))
  else Ok current_user.

Definition can_access_file (file_id : Z) (current_user : User.t)
  (db : Session) : Result File.t :=
  match get_file_by_id db file_id with
  | None => Raise (HTTPException HTTP_404_NOT_FOUND "File not found")
  | Some file =>
      if UserRole_eqb (User.role current_user) ADMIN then Ok file
      else if UserRole_eqb (User.role current_user) MANAGER then Ok file
      else if UserRole_eqb (User.role current_user) USER then
        if FileVisibility_eqb (File.visibility file) PUBLIC then Ok file
        else if FileVisibility_eqb (File.visibility file) DEPARTMENT
                && (File.department_id file =? User.department_id current_user)
        then Ok file
        else if FileVisibility_eqb (File.visibility file) PRIVATE
                && (File.owner_id file =? User.id current_user)
        then Ok file
        else Raise (HTTPException HTTP_403_FORBIDDEN
                      "Access denied to this file")
      else Ok file
  end.

Definition can_delete_file (file_id : Z) (current_user : User.t)
  (db : Session) : Result File.t :=
  match get_file_by_id db file_id with
  | None => Raise (HTTPException HTTP_404_NOT_FOUND "File not found")
  | Some file =>
      if UserRole_eqb (User.role current_user) ADMIN then Ok file
      else if UserRole_eqb (User.role current_user) MANAGER then
        if File.department_id file =? User.department_id current_user
        then Ok file
        else Raise (HTTPException HTTP_403_FORBIDDEN
                      "Can only delete files from your department")
      else if UserRole_eqb (User.role current_user) USER then
        if File.owner_id file =? User.id current_user then Ok file
        else Raise (HTTPException HTTP_403_FORBIDDEN
                      "Can only delete your own files")
      else Ok file
  end.

(** [f"Role {required_role} required"] *)
Definition role_required_detail (required_role : UserRole) : string :=
  "Role " ++ UserRole_format required_role ++ " required".

Definition require_role (required_role : UserRole) (current_user : User.t)
  : Result User.t :=
  if negb (UserRole_eqb (User.role current_user) required_role)
     && negb (UserRole_eqb (User.role current_user) ADMIN)
  then Raise (HTTPException HTTP_403_FORBIDDEN
                (role_required_detail required_role))
  else Ok current_user.

(** ** The decision an endpoint reports

    The handlers report a refusal as an [HTTPException]; its status code and
    detail text identify which rule refused. [reason_of] reads the reason
    code off the exception: 404 is [NotFound]; a 403 is classified by the
    detail text its raise site writes. Any other exception carries no
    reason code. *)

Inductive ReasonCode : Set :=
| NotFound
| Forbidden_Visibility
| Forbidden_Department
| Forbidden_Ownership
| Forbidden_RoleFloor
| Forbidden_RoleCeiling.

Definition forbidden_reason (detail : string) : option ReasonCode :=
  if String.eqb detail "Access denied to this file"
     || String.eqb detail "USER role can only create PRIVATE files"
  then Some Forbidden_Visibility
  else if String.eqb detail "Can only delete files from your department"
          || String.eqb detail "Can only view users from your department"
          || String.eqb detail "Can only update users from your department"
  then Some Forbidden_Department
  else if String.eqb detail "Can only delete your own files"
  then Some Forbidden_Ownership
  else if String.eqb detail "MANAGER role can only create USER role users"
          || String.eqb detail "MANAGER role can only change users to USER role"
  then Some Forbidden_RoleCeiling
  else if existsb (fun required_role =>
                     String.eqb detail (role_or_higher_detail required_role))
            [USER; MANAGER; ADMIN]
  then Some Forbidden_RoleFloor
  else None.

Definition reason_of (e : Exception) : option ReasonCode :=
  match e with
  | HTTPException code detail =>
      if code =? HTTP_404_NOT_FOUND then Some NotFound
      else if code =? HTTP_403_FORBIDDEN then forbidden_reason detail
      else None
  | _ => None
  end.

Inductive Decision : Set :=
| Allow
| Deny (reason : ReasonCode)
| Failure (e : Exception).

Definition decision {A} (r : Result A) : Decision :=
  match r with
  | Ok _ => Allow
  | Raise e =>
      match reason_of e with
      | Some reason => Deny reason
      | None => Failure e
      end
  end.

(** Whether a check let the request through. *)
Definition allows {A} (r : Result A) : bool :=
  match r with
  | Ok _ => true
  | Raise _ => false
  end.

(** ** Name and attribute resolution *)

(** A global name is looked up in the module's namespace when the line that
    uses it runs; a name bound neither there nor among the builtins raises
    [NameError]. *)
Definition load_global (globals : list string) (name : string) : Result unit :=
  if existsb (String.eqb name) globals then Ok tt else Raise (NameError name).

(** The values the attributes of [Settings] hold. *)
Inductive Value : Set :=
| IntValue (n : Z)
| StrValue (s : string)
| ListValue (l : list string).

Definition getattr (class_name : string) (attrs : list (string * Value))
  (name : string) : Result Value :=
  match find (fun kv => String.eqb (fst kv) name) attrs with
  | Some kv => Ok (snd kv)
  | None => Raise (AttributeError class_name name)
  end.

(** [size > v] for an integer [size] *)
Definition int_gt (size : Z) (v : Value) : Result bool :=
  match v with
  | IntValue n => Ok (size >? n)
  | _ => Raise (TypeError "'>' not supported between instances")
  end.

Fixpoint str_contains (s sub : string) : bool :=
  String.prefix sub s
  || match s with
     | EmptyString => false
     | String _ s' => str_contains s' sub
     end.

(** [x in v] for a string [x] *)
Definition contains (v : Value) (x : string) : Result bool :=
  match v with
  | ListValue l => Ok (existsb (String.eqb x) l)
  | StrValue s => Ok (str_contains s x)
  | IntValue _ => Raise (TypeError "argument of type 'int' is not iterable")
  end.

(** ** schemas.py *)

Module UserCreate.
Record t : Set := mk
  { username : string;
    role : UserRole;
    department_id : Z;
    password : string }.
End UserCreate.

Module FileCreate.
Record t : Set := mk { visibility : FileVisibility }.
End FileCreate.

Module FileListResponse.
Record t : Set := mk { files : list File.t; total : Z }.
End FileListResponse.

(** The uploaded part of the request: [size] may be absent. *)
Module UploadFile.
Record t : Set := mk
  { size : option Z;
    filename : string;
    content : list Byte.byte }.
End UploadFile.

(** What [download_file] hands to the transport. *)
Module FileResponse.
Record t : Set := mk
  { path : string;
    filename : string;
    media_type : string }.
End FileResponse.

(** The key the engine gives a new row: one more than the largest in use. *)
Definition next_id (ids : list Z) : Z := 1 + fold_right Z.max 0 ids.

Section Service.

(** The collaborators the service is handed: password hashing ([auth]),
    the process environment, the path functions of [os.path], the random
    name, the disk and the clock. *)
Variable get_password_hash : string -> string.
Variable getenv : string -> string -> string.
Variable int_of_str : string -> Z.
Variable splitext : string -> string * string.
Variable lower : string -> string.
Variable path_join : string -> string -> string.
Variable uuid4 : string.
Variable now : Z.
(** Writing or removing a file returns the text of the error, if any. *)
Variable write_file : string -> list Byte.byte -> option string.
Variable remove_file : string -> option string.

(** *** crud.py, the functions that insert *)

Definition create_user (db : Session) (user : UserCreate.t)
  : User.t * Session :=
  let hashed_password := get_password_hash (UserCreate.password user) in
  let db_user :=
    {| User.id := next_id (map User.id (users db));
       User.username := UserCreate.username user;
       User.password_hash := hashed_password;
       User.role := UserCreate.role user;
       User.department_id := UserCreate.department_id user |} in
  (db_user, with_users db (users db ++ [db_user])).

Definition create_file (db : Session) (file : FileCreate.t)
  (owner_id department_id : Z) (file_path filename : string) (size : Z)
  : File.t * Session :=
  let db_file :=
    {| File.id := next_id (map File.id (files db));
       File.owner_id := owner_id;
       File.department_id := department_id;
       File.visibility := FileCreate.visibility file;
       File.file_path := file_path;
       File.filename := filename;
       File.size := size;
       File.created_at := now;
       File.downloads_count := 0 |} in
  (db_file, with_files db (files db ++ [db_file])).

(** *** config.py *)

Definition Settings : list (string * Value) :=
  [ ("SECRET_KEY",
     StrValue (getenv "SECRET_KEY" "your-secret-key-here-change-in-production"));
    ("ALGORITHM", StrValue (getenv "ALGORITHM" "HS256"));
    ("ACCESS_TOKEN_EXPIRE_MINUTES",
     IntValue (int_of_str (getenv "ACCESS_TOKEN_EXPIRE_MINUTES" "30")));
    ("DATABASE_URL", StrValue (getenv "DATABASE_URL" "sqlite:///:memory:"));
    ("UPLOAD_DIR", StrValue (getenv "UPLOAD_DIR" "/app/uploads"));
    ("MAX_FILE_SIZE_USER", IntValue (10 * 1024 * 1024));
    ("MAX_FILE_SIZE_MANAGER", IntValue (50 * 1024 * 1024));
    ("MAX_FILE_SIZE_ADMIN", IntValue (100 * 1024 * 1024));
    ("ALLOWED_FILE_TYPES_USER", ListValue [".pdf"]) ].

Definition settings (name : string) : Result Value :=
  getattr "Settings" Settings name.

(** *** routers/users.py *)

(** The names the module binds: its imports, [router], and its four
    handlers. *)
Definition users_globals : list string :=
  [ "APIRouter"; "Depends"; "HTTPException"; "status";
    "Session";
    "List";
    "get_db";
    "get_current_user";
    "require_role_or_higher";
    "User"; "UserRole";
    "UserCreate"; "UserResponse"; "UserUpdate"; "MessageResponse";
    "create_user"; "get_user_by_id"; "get_users_by_department";
    "get_all_users"; "update_user_role";
    "router";
    "create_new_user"; "get_user_info"; "update_user_role_endpoint";
    "list_users" ].

Definition create_new_user (user : UserCreate.t) (current_user : User.t)
  : M User.t :=
  current_user <- depends (fun _ => require_role_or_higher MANAGER current_user) ;;
  (* Check if username already exists *)
  depends (fun _ => load_global users_globals "get_user_by_username") ;;;
  existing_user <-
    depends (fun db => Ok (get_user_by_username db (UserCreate.username user))) ;;
  match existing_user with
  | Some _ =>
      raise (HTTPException HTTP_400_BAD_REQUEST "Username already exists")
  | None =>
      (* Check role restrictions *)
      (if UserRole_eqb (User.role current_user) MANAGER then
         if negb (UserRole_eqb (UserCreate.role user) USER) then
           raise (HTTPException HTTP_403_FORBIDDEN
                    "MANAGER role can only create USER role users")
         else ret tt
       else ret tt) ;;;
      commit (fun db => create_user db user)
  end.

Definition get_user_info (user_id : Z) (current_user : User.t) : M User.t :=
  current_user <- depends (fun _ => require_role_or_higher MANAGER current_user) ;;
  user <- depends (fun db => Ok (get_user_by_id db user_id)) ;;
  match user with
  | None => raise (HTTPException HTTP_404_NOT_FOUND "User not found")
  | Some user =>
      (* Check access restrictions for MANAGER role *)
      (if UserRole_eqb (User.role current_user) MANAGER then
         if negb (User.department_id user =? User.department_id current_user)
         then raise (HTTPException HTTP_403_FORBIDDEN
                       "Can only view users from your department")
         else ret tt
       else ret tt) ;;;
      ret user
  end.

Definition update_user_role_endpoint (user_id : Z) (new_role : UserRole)
  (current_user : User.t) : M User.t :=
  current_user <- depends (fun _ => require_role_or_higher MANAGER current_user) ;;
  user <- depends (fun db => Ok (get_user_by_id db user_id)) ;;
  match user with
  | None => raise (HTTPException HTTP_404_NOT_FOUND "User not found")
  | Some user =>
      (* Check access restrictions for MANAGER role *)
      (if UserRole_eqb (User.role current_user) MANAGER then
         if negb (User.department_id user =? User.department_id current_user)
         then raise (HTTPException HTTP_403_FORBIDDEN
                       "Can only update users from your department")
         (* Manager can only change to USER role *)
         else if negb (UserRole_eqb new_role USER)
         then raise (HTTPException HTTP_403_FORBIDDEN
                       "MANAGER role can only change users to USER role")
         else ret tt
       else ret tt) ;;;
      updated_user <- commit (fun db => update_user_role db user_id new_role) ;;
      match updated_user with
      | None => raise (HTTPException HTTP_500_INTERNAL_SERVER_ERROR
                         "Failed to update user role")
      | Some updated_user => ret updated_user
      end
  end.

Definition list_users (current_user : User.t) : M (list User.t) :=
  current_user <- depends (fun _ => require_role_or_higher MANAGER current_user) ;;
  if UserRole_eqb (User.role current_user) ADMIN then
    depends (fun db => Ok (get_all_users db))
  else
    (* MANAGER role *)
    depends (fun db =>
               Ok (get_users_by_department db (User.department_id current_user))).

(** *** routers/files.py *)

(** [# Check file size based on user role] *)
Definition check_file_size (file : UploadFile.t) (current_user : User.t)
  : Result unit :=
  match settings "MAX_FILE_SIZE_USER" with
  | Raise e => Raise e
  | Ok max_size_user =>
      let max_size :=
        if UserRole_eqb (User.role current_user) MANAGER then
          settings "MAX_FILE_SIZE_MANAGER"
        else if UserRole_eqb (User.role current_user) ADMIN then
          settings "MAX_FILE_SIZE_ADMIN"
        else Ok max_size_user in
      match max_size with
      | Raise e => Raise e
      | Ok max_size =>
          match UploadFile.size file with
          | None => Ok tt
          | Some size =>
              if size =? 0 then Ok tt
              else
                match int_gt size max_size with
                | Raise e => Raise e
                | Ok true =>
                    Raise (HTTPException HTTP_413_REQUEST_ENTITY_TOO_LARGE
                             "File size exceeds maximum allowed size for your role")
                | Ok false => Ok tt
                end
          end
      end
  end.

(** One branch of the type check,
    [if file_extension not in settings.<attr>: raise HTTPException(400, ...)];
    the three branches differ in the attribute read and the role named. *)
Definition check_allowed_type (attr role_name file_extension : string)
  : Result unit :=
  match settings attr with
  | Raise e => Raise e
  | Ok allowed =>
      match contains allowed file_extension with
      | Raise e => Raise e
      | Ok true => Ok tt
      | Ok false =>
          Raise (HTTPException HTTP_400_BAD_REQUEST
                   ("File type " ++ file_extension ++ " not allowed for "
                    ++ role_name ++ " role"))
      end
  end.

(** [# Check file type based on user role] *)
Definition check_file_type (file : UploadFile.t) (current_user : User.t)
  : Result unit :=
  let file_extension := lower (snd (splitext (UploadFile.filename file))) in
  if UserRole_eqb (User.role current_user) USER then
    check_allowed_type "ALLOWED_FILE_TYPES_USER" "USER" file_extension
  else if UserRole_eqb (User.role current_user) MANAGER then
    check_allowed_type "ALLOWED_FILE_TYPES_MANAGER" "MANAGER" file_extension
  else if UserRole_eqb (User.role current_user) ADMIN then
    check_allowed_type "ALLOWED_FILE_TYPES_ADMIN" "ADMIN" file_extension
  else Ok tt.

(** [# Check visibility restrictions - only USER role is restricted to
    PRIVATE] *)
Definition check_visibility (visibility : FileVisibility)
  (current_user : User.t) : Result unit :=
  if UserRole_eqb (User.role current_user) USER
     && negb (FileVisibility_eqb visibility PRIVATE)
  then Raise (HTTPException HTTP_403_FORBIDDEN
                "USER role can only create PRIVATE files")
  else Ok tt.

(** [# Generate unique filename], [# Save file to disk],
    [# Create file record in database] *)
Definition save_upload (file : UploadFile.t) (visibility : FileVisibility)
  (current_user : User.t) : M File.t :=
  let file_extension := snd (splitext (UploadFile.filename file)) in
  let unique_filename := uuid4 ++ file_extension in
  upload_dir <- depends (fun _ => settings "UPLOAD_DIR") ;;
  match upload_dir with
  | StrValue upload_dir =>
      let file_path := path_join upload_dir unique_filename in
      let content := UploadFile.content file in
      match write_file file_path content with
      | Some e =>
          raise (HTTPException HTTP_500_INTERNAL_SERVER_ERROR
                   ("Failed to save file: " ++ e))
      | None =>
          commit (fun db =>
                    create_file db (FileCreate.mk visibility)
                      (User.id current_user) (User.department_id current_user)
                      file_path (UploadFile.filename file)
                      (Z.of_nat (List.length content)))
      end
  | _ => raise (TypeError "expected str, bytes or os.PathLike object")
  end.

(** The handler runs its blocks in this order; a block that raises ends
    the request. *)
Definition upload_file (file : UploadFile.t) (visibility : FileVisibility)
  (current_user : User.t) : M File.t :=
  depends (fun _ => check_file_size file current_user) ;;;
  depends (fun _ => check_file_type file current_user) ;;;
  depends (fun _ => check_visibility visibility current_user) ;;;
  save_upload file visibility current_user.

Definition get_file_info (file_id : Z) (current_user : User.t) : M File.t :=
  depends (can_access_file file_id current_user).

Definition download_file (file_id : Z) (current_user : User.t)
  : M FileResponse.t :=
  file <- depends (can_access_file file_id current_user) ;;
  (* Increment download count *)
  commit (fun db => increment_download_count db file_id) ;;;
  (* Return file for download *)
  ret {| FileResponse.path := File.file_path file;
         FileResponse.filename := File.filename file;
         FileResponse.media_type := "application/octet-stream" |}.

Definition delete_file_endpoint (file_id : Z) (current_user : User.t)
  : M string :=
  file <- depends (can_delete_file file_id current_user) ;;
  (* Delete file from disk *)
  match remove_file (File.file_path file) with
  | Some e =>
      raise (HTTPException HTTP_500_INTERNAL_SERVER_ERROR
               ("Failed to delete file from disk: " ++ e))
  | None =>
      (* Delete file record from database *)
      deleted <- commit (fun db => delete_file db file_id) ;;
      if (deleted : bool) then ret "File deleted successfully"
      else raise (HTTPException HTTP_500_INTERNAL_SERVER_ERROR
                    "Failed to delete file record")
  end.

Definition list_files (current_user : User.t) : M FileListResponse.t :=
  files <- depends (fun db => Ok (get_accessible_files db current_user)) ;;
  ret {| FileListResponse.files := files;
         FileListResponse.total := Z.of_nat (List.length files) |}.


(** ** A populated service

    The four accounts [main.py] creates at start-up, three stored files, and
    stand-ins for the collaborators, on which the properties below are
    evaluated. *)

Definition user1 : User.t := User.mk 1 "user1" "hash:password" USER 1.
Definition manager1 : User.t := User.mk 2 "manager1" "hash:password" MANAGER 1.
Definition admin1 : User.t := User.mk 3 "admin1" "hash:password" ADMIN 1.
Definition user2 : User.t := User.mk 4 "user2" "hash:password" USER 2.

Definition memo : File.t :=
  File.mk 10 2 1 DEPARTMENT "/app/uploads/a.pdf" "memo.pdf" 2048 0 0.
Definition diary : File.t :=
  File.mk 11 4 2 PRIVATE "/app/uploads/b.pdf" "diary.pdf" 4096 0 7.
Definition notice : File.t :=
  File.mk 12 3 1 PUBLIC "/app/uploads/c.pdf" "notice.pdf" 512 0 3.

Definition demo_db : Session :=
  {| users := [user1; manager1; admin1; user2];
     files := [memo; diary; notice] |}.

Definition demo_hash (password : string) : string := "hash:" ++ password.
Definition demo_getenv (name default : string) : string := default.
Definition demo_int (s : string) : Z := 30.
(** Every upload of the scenario is named [report.PDF]. *)
Definition demo_splitext (name : string) : string * string := ("report", ".PDF").
Definition demo_lower (s : string) : string :=
  if String.eqb s ".PDF" then ".pdf" else s.
Definition demo_join (dir name : string) : string := dir ++ "/" ++ name.
Definition demo_uuid : string := "123e4567-e89b-42d3-a456-426614174000".
Definition demo_write (path : string) (content : list Byte.byte)
  : option string := None.
Definition demo_remove (path : string) : option string := None.

Definition small_upload : UploadFile.t :=
  UploadFile.mk (Some 1024) "report.PDF" [].
(** Sixty megabytes: above the limit of a MANAGER. *)
Definition large_upload : UploadFile.t :=
  UploadFile.mk (Some (60 * 1024 * 1024)) "report.PDF" [].

(** The record of [small_upload] once [user1] has uploaded it to
    [demo_db]. *)
Definition uploaded_report : File.t :=
  File.mk 13 1 1 PRIVATE
    "/app/uploads/123e4567-e89b-42d3-a456-426614174000.PDF" "report.PDF" 0 0 0.

(** An upload of three bytes, declared as three bytes, and its record once
    [user1] has uploaded it to [demo_db]. *)
Definition pdf_upload : UploadFile.t :=
  UploadFile.mk (Some 3) "report.PDF" [Byte.x25; Byte.x50; Byte.x44].

Definition uploaded_pdf : File.t :=
  File.mk 13 1 1 PRIVATE
    "/app/uploads/123e4567-e89b-42d3-a456-426614174000.PDF" "report.PDF" 3 0 0.

(** A DEPARTMENT file of department 2 whose owner, [user1], is of
    department 1. *)
Definition stray : File.t :=
  File.mk 13 1 2 DEPARTMENT "/app/uploads/d.pdf" "stray.pdf" 100 0 0.

Definition stray_db : Session :=
  {| users := [user1; manager1; admin1; user2];
     files := [memo; diary; notice; stray] |}.

(** [n] calls of [increment_download_count] on one key, one after the
    other. *)
Definition count_downloads (n : nat) (file_id : Z) (db : Session) : Session :=
  Nat.iter n (fun d => snd (increment_download_count d file_id)) db.

(** No two stored users share a username ([unique=True]). *)
Definition unique_usernames (db : Session) : Prop :=
  NoDup (map User.username (users db)).

(** * Properties *)

(** ** Equality tests and table lookups *)

Lemma UserRole_eqb_eq (a b : UserRole) : UserRole_eqb a b = true <-> a = b.
Proof. destruct a, b; simpl; split; congruence. Qed.

Lemma FileVisibility_eqb_eq (a b : FileVisibility) :
  FileVisibility_eqb a b = true <-> a = b.
Proof. destruct a, b; simpl; split; congruence. Qed.

(** What the filter of the listing query says about one file. *)
Lemma user_sees_iff (current_user : User.t) (f : File.t) :
  user_sees current_user f = true <->
  File.visibility f = PUBLIC
  \/ (File.visibility f = DEPARTMENT
      /\ File.department_id f = User.department_id current_user)
  \/ (File.visibility f = PRIVATE /\ File.owner_id f = User.id current_user).
Proof.
  unfold user_sees.
  rewrite !orb_true_iff, !andb_true_iff, !FileVisibility_eqb_eq, !Z.eqb_eq.
  clear. tauto.
Qed.

(** Under a primary key, looking a row up by its own key finds that row. *)
Lemma find_by_key {A : Set} (key : A -> Z) (rows : list A) (r : A) :
  NoDup (map key rows) -> In r rows ->
  find (fun x => key x =? key r) rows = Some r.
Proof.
  induction rows as [|x rows IH]; simpl; intros Hnd Hin; [contradiction|].
  inversion Hnd as [|k ks Hnotin Hnd']; subst.
  destruct Hin as [->|Hin].
  - now rewrite Z.eqb_refl.
  - destruct (Z.eqb_spec (key x) (key r)) as [Heq|_]; [|auto].
    exfalso. apply Hnotin. rewrite Heq. now apply in_map.
Qed.

Lemma get_file_by_id_member (db : Session) (f : File.t) :
  primary_key db -> In f (files db) -> get_file_by_id db (File.id f) = Some f.
Proof. intros [_ Hnd] Hin. now apply (find_by_key File.id). Qed.

(** The single-file check as a function of the file that was found. *)
Lemma can_access_file_found (db : Session) (file_id : Z)
  (current_user : User.t) (file : File.t) :
  get_file_by_id db file_id = Some file ->
  can_access_file file_id current_user db =
  match User.role current_user with
  | USER =>
      if user_sees current_user file then Ok file
      else Raise (HTTPException HTTP_403_FORBIDDEN "Access denied to this file")
  | _ => Ok file
  end.
Proof.
  intros Hfound. unfold can_access_file, user_sees. rewrite Hfound.
  destruct (User.role current_user); simpl; try reflexivity.
  destruct (File.visibility file); simpl;
    repeat match goal with |- context [?a =? ?b] => destruct (a =? b) end;
    reflexivity.
Qed.

(** ** Viewing and downloading a file *)

(** C1. Viewing ([get_file_info]) and downloading ([download_file]) decide
    by the same check, [can_access_file]. An absent file is refused with
    NotFound. A file that is found is handed to an ADMIN and to a MANAGER
    whatever its department; it is handed to a USER exactly when it is
    PUBLIC, or DEPARTMENT and of the user's department, or PRIVATE and owned
    by the user, and refused with Forbidden-Visibility otherwise. *)
Theorem view_and_download_decide_alike
  (db : Session) (file_id : Z) (current_user : User.t) :
  let answer := can_access_file file_id current_user db in
  fst (get_file_info file_id current_user db) = answer
  /\ decision (fst (download_file file_id current_user db)) = decision answer
  /\ (get_file_by_id db file_id = None -> decision answer = Deny NotFound)
  /\ (forall file, get_file_by_id db file_id = Some file ->
        (User.role current_user = ADMIN \/ User.role current_user = MANAGER ->
         answer = Ok file)
        /\ (User.role current_user = USER ->
            (answer = Ok file <->
             File.visibility file = PUBLIC
             \/ (File.visibility file = DEPARTMENT
                 /\ File.department_id file = User.department_id current_user)
             \/ (File.visibility file = PRIVATE
                 /\ File.owner_id file = User.id current_user))
            /\ (answer = Ok file
                \/ decision answer = Deny Forbidden_Visibility))).
Proof.
  intros answer. subst answer.
  split; [reflexivity|]. split.
  - unfold download_file, bind, depends, commit, ret.
    destruct (can_access_file file_id current_user db) as [file|e]; simpl;
      [|reflexivity].
    now destruct (increment_download_count db file_id).
  - split.
    + intros Hnone. unfold can_access_file. now rewrite Hnone.
    + intros file Hfound.
      rewrite (can_access_file_found _ _ _ _ Hfound).
      split.
      * intros [-> | ->]; reflexivity.
      * intros ->. rewrite <- user_sees_iff.
        destruct (user_sees current_user file); simpl.
        -- split; [split; intros _; reflexivity | now left].
        -- split; [split; [discriminate | discriminate] | now right].
Qed.

(** ** Deleting a file *)

(** C2. [can_delete_file] refuses an absent file with NotFound; hands any
    file to an ADMIN; hands a file to a MANAGER exactly when it is of the
    manager's department and otherwise refuses with Forbidden-Department;
    hands a file to a USER exactly when the user owns it and otherwise
    refuses with Forbidden-Ownership. *)
Theorem can_delete_file_decision
  (db : Session) (file_id : Z) (current_user : User.t) :
  let answer := can_delete_file file_id current_user db in
  (get_file_by_id db file_id = None -> decision answer = Deny NotFound)
  /\ (forall file, get_file_by_id db file_id = Some file ->
        (User.role current_user = ADMIN -> answer = Ok file)
        /\ (User.role current_user = MANAGER ->
            (answer = Ok file <->
             File.department_id file = User.department_id current_user)
            /\ (File.department_id file <> User.department_id current_user ->
                decision answer = Deny Forbidden_Department))
        /\ (User.role current_user = USER ->
            (answer = Ok file <-> File.owner_id file = User.id current_user)
            /\ (File.owner_id file <> User.id current_user ->
                decision answer = Deny Forbidden_Ownership))).
Proof.
  intros answer. subst answer. unfold can_delete_file. split.
  - intros Hnone. now rewrite Hnone.
  - intros file Hfound. rewrite Hfound. repeat split.
    + intros ->. reflexivity.
    + rewrite H. simpl.
      destruct (Z.eqb_spec (File.department_id file)
                  (User.department_id current_user)); [auto | discriminate].
    + rewrite H. simpl. intros ->. now rewrite Z.eqb_refl.
    + rewrite H. simpl. intros Hne.
      apply Z.eqb_neq in Hne. now rewrite Hne.
    + rewrite H. simpl.
      destruct (Z.eqb_spec (File.owner_id file) (User.id current_user));
        [auto | discriminate].
    + rewrite H. simpl. intros ->. now rewrite Z.eqb_refl.
    + rewrite H. simpl. intros Hne.
      apply Z.eqb_neq in Hne. now rewrite Hne.
Qed.

(** ** Listing the files *)

Lemma filter_all {A} (p : A -> bool) (l : list A) :
  (forall a, In a l -> p a = true) -> filter p l = l.
Proof.
  induction l as [|a l IH]; simpl; intros Hall; [reflexivity|].
  rewrite (Hall a (or_introl eq_refl)). f_equal. apply IH. auto.
Qed.

Lemma get_file_by_id_alone (db : Session) (f : File.t) :
  get_file_by_id (with_files db [f]) (File.id f) = Some f.
Proof. unfold get_file_by_id. simpl. now rewrite Z.eqb_refl. Qed.

Lemma allows_can_access_file (db : Session) (current_user : User.t)
  (f : File.t) :
  get_file_by_id db (File.id f) = Some f ->
  allows (can_access_file (File.id f) current_user db)
  = match User.role current_user with
    | USER => user_sees current_user f
    | _ => true
    end.
Proof.
  intros Hfound. rewrite (can_access_file_found db _ _ f Hfound).
  destruct (User.role current_user); try reflexivity.
  now destruct (user_sees current_user f).
Qed.

Lemma get_accessible_files_filter (db : Session) (current_user : User.t) :
  get_accessible_files db current_user =
  filter (fun f => match User.role current_user with
                   | USER => user_sees current_user f
                   | _ => true
                   end) (files db).
Proof.
  unfold get_accessible_files.
  destruct (User.role current_user); simpl; try reflexivity;
    symmetry; now apply filter_all.
Qed.

(** C3. The listing ([get_accessible_files]) is the table filtered, in
    table order, by the single-file check [can_access_file] run on each row
    by itself, and, under the primary key of [files], by that check run on
    the key of each row against the whole table. It is the whole table for
    an ADMIN and for a MANAGER, and for a USER the rows that are PUBLIC, or
    DEPARTMENT and of the user's department, or PRIVATE and owned by the
    user. *)
Theorem listing_agrees_with_single_check
  (db : Session) (current_user : User.t) :
  get_accessible_files db current_user =
    filter (fun f => allows (can_access_file (File.id f) current_user
                               (with_files db [f])))
      (files db)
  /\ (primary_key db ->
      get_accessible_files db current_user =
        filter (fun f => allows (can_access_file (File.id f) current_user db))
          (files db))
  /\ (User.role current_user = ADMIN \/ User.role current_user = MANAGER ->
      get_accessible_files db current_user = files db)
  /\ (User.role current_user = USER ->
      forall f, In f (get_accessible_files db current_user) <->
                In f (files db)
                /\ (File.visibility f = PUBLIC
                    \/ (File.visibility f = DEPARTMENT
                        /\ File.department_id f = User.department_id current_user)
                    \/ (File.visibility f = PRIVATE
                        /\ File.owner_id f = User.id current_user))).
Proof.
  split; [|split; [|split]].
  - rewrite get_accessible_files_filter. apply filter_ext. intros f.
    now rewrite (allows_can_access_file _ _ f (get_file_by_id_alone db f)).
  - intros Hpk. rewrite get_accessible_files_filter.
    apply filter_ext_in. intros f Hin.
    now rewrite (allows_can_access_file _ _ f
                   (get_file_by_id_member db f Hpk Hin)).
  - unfold get_accessible_files. intros [-> | ->]; reflexivity.
  - unfold get_accessible_files. intros -> f. simpl.
    rewrite filter_In, user_sees_iff. reflexivity.
Qed.

(** ** Uploading a file *)

Lemma run_depends_ok {A B} (d : Session -> Result A) (k : A -> M B)
  (db : Session) (a : A) :
  d db = Ok a -> bind (depends d) k db = k a db.
Proof. intros Hd. unfold bind, depends. now rewrite Hd. Qed.

Lemma run_depends_raise {A B} (d : Session -> Result A) (k : A -> M B)
  (db : Session) (e : Exception) :
  d db = Raise e -> bind (depends d) k db = (Raise e, db).
Proof. intros Hd. unfold bind, depends. now rewrite Hd. Qed.

(** The visibility block of the upload, taken by itself
    ([check_visibility]): a USER passes it exactly when the requested
    visibility is PRIVATE and is refused with Forbidden-Visibility for
    DEPARTMENT and PUBLIC; a MANAGER and an ADMIN would pass it for every
    visibility. In [upload_file] a USER whose size and type checks passed
    is refused by this block, with nothing stored, or goes on to save the
    file. *)
Theorem upload_visibility_rule
  (visibility : FileVisibility) (current_user : User.t) :
  (User.role current_user = USER ->
     (check_visibility visibility current_user = Ok tt <-> visibility = PRIVATE)
     /\ (visibility <> PRIVATE ->
         decision (check_visibility visibility current_user)
         = Deny Forbidden_Visibility)
     /\ (forall file db,
            check_file_size file current_user = Ok tt ->
            check_file_type file current_user = Ok tt ->
            upload_file file visibility current_user db =
            match visibility with
            | PRIVATE => save_upload file visibility current_user db
            | _ => (Raise (HTTPException HTTP_403_FORBIDDEN
                             "USER role can only create PRIVATE files"), db)
            end))
  /\ (User.role current_user = MANAGER \/ User.role current_user = ADMIN ->
      forall visibility', check_visibility visibility' current_user = Ok tt).
Proof.
  unfold check_visibility. split.
  - intros Hrole. rewrite Hrole. simpl. repeat split.
    + destruct visibility; simpl; congruence.
    + intros ->. reflexivity.
    + destruct visibility; simpl; congruence.
    + intros file db Hsize Htype. unfold upload_file.
      rewrite (run_depends_ok _ _ db tt Hsize).
      rewrite (run_depends_ok _ _ db tt Htype).
      unfold check_visibility. rewrite Hrole.
      destruct visibility; reflexivity.
  - intros [-> | ->] v; reflexivity.
Qed.

(** ** The role floor *)

Lemma floor_manager (current_user : User.t) :
  require_role_or_higher MANAGER current_user =
  match User.role current_user with
  | USER => Raise (HTTPException HTTP_403_FORBIDDEN
                     (role_or_higher_detail MANAGER))
  | _ => Ok current_user
  end.
Proof.
  unfold require_role_or_higher. now destruct (User.role current_user).
Qed.

Lemma floor_refusal_reason (required_role : UserRole) :
  reason_of (HTTPException HTTP_403_FORBIDDEN
               (role_or_higher_detail required_role))
  = Some Forbidden_RoleFloor.
Proof. now destruct required_role. Qed.

(** The row [update_user_role] writes when the target is found. *)
Lemma update_user_role_found (db : Session) (user_id : Z)
  (new_role : UserRole) (target : User.t) :
  get_user_by_id db user_id = Some target ->
  fst (update_user_role db user_id new_role)
  = Some (User.set_role target new_role).
Proof.
  unfold get_user_by_id, update_user_role. intros ->. reflexivity.
Qed.

(** ** Changing a role *)

(** C5. [update_user_role_endpoint] on a target that exists: an ADMIN sets
    any role. A MANAGER is let through exactly when the target is of the
    manager's department and the new role is USER; a target of another
    department is refused with Forbidden-Department, and a target of the
    manager's department with a new role other than USER is refused with
    Forbidden-RoleCeiling. A refusal leaves the session as it was. *)
Theorem update_user_role_endpoint_decision
  (db : Session) (user_id : Z) (new_role : UserRole)
  (current_user target : User.t) :
  get_user_by_id db user_id = Some target ->
  let run := update_user_role_endpoint user_id new_role current_user db in
  (User.role current_user = ADMIN ->
     fst run = Ok (User.set_role target new_role))
  /\ (User.role current_user = MANAGER ->
      (allows (fst run) = true <->
       User.department_id target = User.department_id current_user
       /\ new_role = USER)
      /\ (User.department_id target = User.department_id current_user ->
          new_role = USER -> fst run = Ok (User.set_role target USER))
      /\ (User.department_id target <> User.department_id current_user ->
          decision (fst run) = Deny Forbidden_Department /\ snd run = db)
      /\ (User.department_id target = User.department_id current_user ->
          new_role <> USER ->
          decision (fst run) = Deny Forbidden_RoleCeiling /\ snd run = db)).
Proof.
  intros Hfound run. subst run. unfold update_user_role_endpoint.
  assert (Hupd := update_user_role_found db user_id new_role target Hfound).
  split.
  - intros Hrole.
    rewrite (run_depends_ok _ _ db current_user);
      [|rewrite floor_manager, Hrole; reflexivity].
    unfold bind, depends, commit, ret. rewrite Hfound, Hrole. simpl.
    destruct (update_user_role db user_id new_role) as [updated db'].
    simpl in Hupd. now rewrite Hupd.
  - intros Hrole.
    rewrite (run_depends_ok _ _ db current_user);
      [|rewrite floor_manager, Hrole; reflexivity].
    unfold bind, depends, commit, ret, raise. rewrite Hfound, Hrole. simpl.
    destruct (Z.eqb_spec (User.department_id target)
                (User.department_id current_user)) as [Hdept|Hdept]; simpl.
    + destruct new_role; simpl;
        destruct (update_user_role db user_id _) as [updated db'];
        simpl in Hupd; try rewrite Hupd; simpl;
        repeat split; try congruence;
        try (intros [_ Habs]; discriminate);
        intros; exfalso; congruence.
    + repeat split; try congruence;
        try (intros; exfalso; congruence).
      intros [Habs _]. contradiction.
Qed.

(** ** Absent targets *)

Lemma can_access_file_reason (db : Session) (file_id : Z)
  (current_user : User.t) (e : Exception) :
  can_access_file file_id current_user db = Raise e ->
  reason_of e = Some NotFound \/ reason_of e = Some Forbidden_Visibility.
Proof.
  unfold can_access_file.
  destruct (get_file_by_id db file_id) as [file|].
  - repeat match goal with
           | |- context [if ?b then _ else _] => destruct b
           end; intros Heq; inversion Heq; subst; auto.
  - intros Heq; inversion Heq; subst; auto.
Qed.

Lemma can_delete_file_reason (db : Session) (file_id : Z)
  (current_user : User.t) (e : Exception) :
  can_delete_file file_id current_user db = Raise e ->
  reason_of e = Some NotFound
  \/ reason_of e = Some Forbidden_Department
  \/ reason_of e = Some Forbidden_Ownership.
Proof.
  unfold can_delete_file.
  destruct (get_file_by_id db file_id) as [file|].
  - repeat match goal with
           | |- context [if ?b then _ else _] => destruct b
           end; intros Heq; inversion Heq; subst; auto.
  - intros Heq; inversion Heq; subst; auto.
Qed.

(** C6, as the code has it. Every refusal of the file check, the delete
    check, the user view and the role change carries one reason code. For
    the two file checks an absent file is refused with NotFound whatever the
    role of the caller. For the user view and the role change the role
    floor comes first: with an absent target a USER is refused with
    Forbidden-RoleFloor, and a MANAGER or an ADMIN with NotFound. *)
Theorem not_found_after_role_floor
  (db : Session) (target_id : Z) (new_role : UserRole) (current_user : User.t) :
  (get_file_by_id db target_id = None ->
     decision (can_access_file target_id current_user db) = Deny NotFound
     /\ decision (can_delete_file target_id current_user db) = Deny NotFound)
  /\ (get_user_by_id db target_id = None ->
      let outcome :=
        match User.role current_user with
        | USER => Deny Forbidden_RoleFloor
        | _ => Deny NotFound
        end in
      decision (fst (get_user_info target_id current_user db)) = outcome
      /\ decision
           (fst (update_user_role_endpoint target_id new_role current_user db))
         = outcome)
  /\ (forall e,
        decision (can_access_file target_id current_user db) <> Failure e
        /\ decision (can_delete_file target_id current_user db) <> Failure e
        /\ decision (fst (get_user_info target_id current_user db)) <> Failure e
        /\ decision
             (fst (update_user_role_endpoint target_id new_role current_user db))
           <> Failure e).
Proof.
  split; [|split].
  - intros Hnone. unfold can_access_file, can_delete_file.
    rewrite Hnone. split; reflexivity.
  - intros Hnone outcome. subst outcome.
    unfold get_user_info, update_user_role_endpoint, bind, depends, raise.
    rewrite floor_manager, Hnone.
    destruct (User.role current_user); split; reflexivity.
  - intros e. repeat split.
    + unfold decision.
      destruct (can_access_file target_id current_user db) as [f|e'] eqn:Hrun;
        [discriminate|].
      destruct (can_access_file_reason _ _ _ _ Hrun) as [-> | ->]; discriminate.
    + unfold decision.
      destruct (can_delete_file target_id current_user db) as [f|e'] eqn:Hrun;
        [discriminate|].
      destruct (can_delete_file_reason _ _ _ _ Hrun) as [-> | [-> | ->]];
        discriminate.
    + unfold get_user_info, bind, depends, raise, ret.
      rewrite floor_manager.
      destruct current_user as [uid uname hash [] dept]; simpl;
        try discriminate;
        destruct (get_user_by_id db target_id) as [target|]; simpl;
        try discriminate;
        destruct (User.department_id target =? dept); simpl; discriminate.
    + unfold update_user_role_endpoint, bind, depends, raise, ret, commit.
      rewrite floor_manager.
      destruct current_user as [uid uname hash [] dept]; simpl;
        try discriminate;
        destruct (get_user_by_id db target_id) as [target|] eqn:Hfound; simpl;
        try discriminate;
        pose proof (update_user_role_found db target_id new_role target Hfound)
          as Hupd;
        try (destruct (User.department_id target =? dept);
             simpl; try discriminate;
             destruct new_role; simpl; try discriminate);
        destruct (update_user_role db target_id _) as [updated db'];
        simpl in Hupd; rewrite Hupd; simpl; discriminate.
Qed.

(** ** The role floor of user management *)

(** C7. [require_role_or_higher] lets the caller through exactly when the
    rank of the caller's role is at least the rank of the required role,
    with ranks USER = 1, MANAGER = 2, ADMIN = 3; it always answers, with the
    caller or with Forbidden-RoleFloor, and the answer depends on the two
    roles only; an ADMIN passes every floor; and creating a user, viewing a
    user, changing a role and listing users all refuse a USER with
    Forbidden-RoleFloor, the session untouched, whatever else was asked. *)
Theorem role_floor_first :
  (dict_get role_hierarchy USER 0 = 1
   /\ dict_get role_hierarchy MANAGER 0 = 2
   /\ dict_get role_hierarchy ADMIN 0 = 3)
  /\ (forall required_role current_user,
        (require_role_or_higher required_role current_user = Ok current_user
         <-> dict_get role_hierarchy (User.role current_user) 0
             >= dict_get role_hierarchy required_role 0)
        /\ (require_role_or_higher required_role current_user = Ok current_user
            \/ (require_role_or_higher required_role current_user
                = Raise (HTTPException HTTP_403_FORBIDDEN
                           (role_or_higher_detail required_role))
                /\ decision (require_role_or_higher required_role current_user)
                   = Deny Forbidden_RoleFloor)))
  /\ (forall required_role u u',
        User.role u = User.role u' ->
        allows (require_role_or_higher required_role u)
        = allows (require_role_or_higher required_role u'))
  /\ (forall required_role current_user,
        User.role current_user = ADMIN ->
        require_role_or_higher required_role current_user = Ok current_user)
  /\ (forall current_user,
        User.role current_user = USER ->
        let refused {A} (db : Session) : Result A * Session :=
          (Raise (HTTPException HTTP_403_FORBIDDEN
                    (role_or_higher_detail MANAGER)), db) in
        reason_of (HTTPException HTTP_403_FORBIDDEN
                     (role_or_higher_detail MANAGER))
        = Some Forbidden_RoleFloor
        /\ forall db user user_id new_role,
            create_new_user user current_user db = refused db
            /\ get_user_info user_id current_user db = refused db
            /\ update_user_role_endpoint user_id new_role current_user db
               = refused db
            /\ list_users current_user db = refused db).
Proof.
  split; [repeat split|]. split; [|split; [|split]].
  - intros required_role current_user. unfold require_role_or_higher.
    destruct (Z.ltb_spec (dict_get role_hierarchy (User.role current_user) 0)
                (dict_get role_hierarchy required_role 0)) as [Hlt|Hge].
    + split; [split; [discriminate | lia]|].
      right. split; [reflexivity|].
      unfold decision. now rewrite floor_refusal_reason.
    + split; [split; [lia | reflexivity] | now left].
  - intros required_role u u' Hrole. unfold require_role_or_higher.
    rewrite Hrole.
    now destruct (_ <? _).
  - intros required_role current_user Hrole. unfold require_role_or_higher.
    rewrite Hrole. now destruct required_role.
  - intros current_user Hrole refused. subst refused.
    split; [reflexivity|].
    intros db user user_id new_role.
    unfold create_new_user, get_user_info, update_user_role_endpoint, list_users.
    rewrite !(run_depends_raise _ _ db
                (HTTPException HTTP_403_FORBIDDEN (role_or_higher_detail MANAGER)))
      by (rewrite floor_manager, Hrole; reflexivity).
    repeat split.
Qed.

(** ** Creating a user *)

(** The names the other three handlers of [routers/users.py] call are bound
    in the module. *)
Lemma users_globals_bound :
  forallb (fun name => allows (load_global users_globals name))
    [ "require_role_or_higher"; "get_user_by_id"; "update_user_role";
      "get_all_users"; "get_users_by_department"; "create_user";
      "HTTPException"; "status"; "UserRole" ] = true.
Proof. reflexivity. Qed.

(** C8. For every caller that passes the MANAGER floor, [create_new_user]
    raises [NameError] for [get_user_by_username], a name the module never
    binds: no look-up of the username is made, the role restriction of
    MANAGER is not consulted, and no user is stored. *)
Theorem create_new_user_name_error
  (user : UserCreate.t) (current_user : User.t) (db : Session) :
  require_role_or_higher MANAGER current_user = Ok current_user ->
  load_global users_globals "get_user_by_username"
  = Raise (NameError "get_user_by_username")
  /\ create_new_user user current_user db
     = (Raise (NameError "get_user_by_username"), db).
Proof.
  intros Hfloor. split; [reflexivity|].
  unfold create_new_user.
  rewrite (run_depends_ok _ _ db current_user Hfloor).
  now rewrite (run_depends_raise _ _ db (NameError "get_user_by_username")).
Qed.

(** ** Uploads by a MANAGER or an ADMIN *)

(** The size limit of a role, as [check_file_size] picks it. *)
Lemma check_file_size_limit (file : UploadFile.t) (current_user : User.t) :
  check_file_size file current_user =
  let limit :=
    match User.role current_user with
    | USER => 10 * 1024 * 1024
    | MANAGER => 50 * 1024 * 1024
    | ADMIN => 100 * 1024 * 1024
    end in
  match UploadFile.size file with
  | None => Ok tt
  | Some size =>
      if negb (size =? 0) && (size >? limit)
      then Raise (HTTPException HTTP_413_REQUEST_ENTITY_TOO_LARGE
                    "File size exceeds maximum allowed size for your role")
      else Ok tt
  end.
Proof.
  unfold check_file_size.
  destruct (User.role current_user); simpl;
    destruct (UploadFile.size file) as [size|]; try reflexivity;
    destruct (size =? 0); simpl; try reflexivity;
    now destruct (size >? _).
Qed.

Lemma check_file_size_privileged (file : UploadFile.t) (current_user : User.t) :
  User.role current_user = MANAGER \/ User.role current_user = ADMIN ->
  check_file_size file current_user =
  match UploadFile.size file with
  | None => Ok tt
  | Some size =>
      if negb (size =? 0)
         && (size >? (if UserRole_eqb (User.role current_user) MANAGER
                      then 50 * 1024 * 1024 else 100 * 1024 * 1024))
      then Raise (HTTPException HTTP_413_REQUEST_ENTITY_TOO_LARGE
                    "File size exceeds maximum allowed size for your role")
      else Ok tt
  end.
Proof.
  intros Hrole. rewrite check_file_size_limit.
  destruct Hrole as [-> | ->]; reflexivity.
Qed.

Lemma privileged_upload_result
  (file : UploadFile.t) (visibility : FileVisibility)
  (current_user : User.t) (db : Session) :
  User.role current_user = MANAGER \/ User.role current_user = ADMIN ->
  upload_file file visibility current_user db =
  (match check_file_size file current_user with
   | Raise e => Raise e
   | Ok _ =>
       Raise (AttributeError "Settings"
                ("ALLOWED_FILE_TYPES_" ++ UserRole_value (User.role current_user)))
   end, db).
Proof.
  intros Hrole. unfold upload_file.
  destruct (check_file_size file current_user) as [[]|e].
  - rewrite (run_depends_ok _ _ db tt eq_refl).
    apply run_depends_raise. unfold check_file_type.
    destruct Hrole as [-> | ->]; reflexivity.
  - now apply run_depends_raise.
Qed.

(** C9, as the code has it. An upload by a MANAGER or an ADMIN never
    reaches the visibility rule and stores nothing. When the size of the
    upload is present, not zero and above the limit of the role (fifty
    megabytes for a MANAGER, a hundred for an ADMIN) the size check refuses
    it with 413. In every other case, and in no other, the size check lets
    it through and reading the list of allowed file types raises
    [AttributeError], [Settings] having no [ALLOWED_FILE_TYPES_MANAGER] and
    no [ALLOWED_FILE_TYPES_ADMIN]. *)
Theorem privileged_upload_stops_before_visibility
  (file : UploadFile.t) (visibility : FileVisibility)
  (current_user : User.t) (db : Session) :
  User.role current_user = MANAGER \/ User.role current_user = ADMIN ->
  let limit :=
    if UserRole_eqb (User.role current_user) MANAGER
    then 50 * 1024 * 1024 else 100 * 1024 * 1024 in
  let too_large :=
    HTTPException HTTP_413_REQUEST_ENTITY_TOO_LARGE
      "File size exceeds maximum allowed size for your role" in
  let missing :=
    AttributeError "Settings"
      ("ALLOWED_FILE_TYPES_" ++ UserRole_value (User.role current_user)) in
  upload_file file visibility current_user db =
  (match check_file_size file current_user with
   | Raise e => Raise e
   | Ok _ => Raise missing
   end, db)
  /\ (forall size,
        UploadFile.size file = Some size -> size <> 0 -> size > limit ->
        check_file_size file current_user = Raise too_large
        /\ upload_file file visibility current_user db = (Raise too_large, db))
  /\ (UploadFile.size file = None
      \/ (exists size, UploadFile.size file = Some size
                       /\ (size = 0 \/ size <= limit)) ->
      check_file_size file current_user = Ok tt
      /\ upload_file file visibility current_user db = (Raise missing, db))
  /\ (forall e, check_file_size file current_user = Raise e ->
        e = too_large
        /\ exists size, UploadFile.size file = Some size
                        /\ size <> 0 /\ size > limit)
  /\ settings "ALLOWED_FILE_TYPES_MANAGER"
     = Raise (AttributeError "Settings" "ALLOWED_FILE_TYPES_MANAGER")
  /\ settings "ALLOWED_FILE_TYPES_ADMIN"
     = Raise (AttributeError "Settings" "ALLOWED_FILE_TYPES_ADMIN").
Proof.
  intros Hrole limit too_large missing.
  pose proof (privileged_upload_result file visibility current_user db Hrole)
    as Hrun.
  pose proof (check_file_size_privileged file current_user Hrole) as Hsize.
  fold limit in Hsize. fold too_large in Hsize. fold missing in Hrun.
  split; [exact Hrun|]. split; [|split; [|split; [|split; reflexivity]]].
  - intros size Hdeclared Hnonzero Habove.
    assert (Hcheck : check_file_size file current_user = Raise too_large).
    { rewrite Hsize, Hdeclared.
      apply Z.eqb_neq in Hnonzero. rewrite Hnonzero. cbn [negb andb].
      destruct (Z.gtb_spec size limit); [reflexivity|lia]. }
    split; [exact Hcheck|]. now rewrite Hrun, Hcheck.
  - intros Hwithin.
    assert (Hcheck : check_file_size file current_user = Ok tt).
    { rewrite Hsize.
      destruct Hwithin as [-> | (size & -> & [-> | Hle])]; [reflexivity| |].
      - reflexivity.
      - destruct (size =? 0); cbn [negb andb]; [reflexivity|].
        destruct (Z.gtb_spec size limit); [lia|reflexivity]. }
    split; [exact Hcheck|]. now rewrite Hrun, Hcheck.
  - intros e. rewrite Hsize.
    destruct (UploadFile.size file) as [size|]; [|discriminate].
    destruct (Z.eqb_spec size 0) as [_|Hnonzero]; cbn [negb andb];
      [discriminate|].
    destruct (Z.gtb_spec size limit) as [Habove|_]; [|discriminate].
    intros Heq. injection Heq as <-.
    split; [reflexivity|]. exists size. repeat split; [assumption|lia].
Qed.

(** C4, where the code departs from it. The docstring of [upload_file]
    lets a MANAGER and an ADMIN create files of every visibility, and the
    visibility block, taken by itself, lets them through. The handler
    does not: for a MANAGER and for an ADMIN, whatever the file and the
    visibility, [upload_file] never answers with a file and stores
    nothing; when the size check passes it stops at the list of allowed
    file types, which [Settings] does not define for these roles. *)
Theorem privileged_create_is_refused
  (file : UploadFile.t) (visibility : FileVisibility)
  (current_user : User.t) (db : Session) :
  User.role current_user = MANAGER \/ User.role current_user = ADMIN ->
  check_visibility visibility current_user = Ok tt
  /\ allows (fst (upload_file file visibility current_user db)) = false
  /\ (forall f, fst (upload_file file visibility current_user db) <> Ok f)
  /\ snd (upload_file file visibility current_user db) = db
  /\ (check_file_size file current_user = Ok tt ->
      upload_file file visibility current_user db =
      (Raise (AttributeError "Settings"
                ("ALLOWED_FILE_TYPES_"
                 ++ UserRole_value (User.role current_user))), db)).
Proof.
  intros Hrole.
  pose proof (privileged_upload_result file visibility current_user db Hrole)
    as Hrun.
  split; [unfold check_visibility; destruct Hrole as [-> | ->]; reflexivity|].
  rewrite Hrun. cbn [fst snd].
  destruct (check_file_size file current_user) as [[]|e];
    repeat split; try discriminate; intros _; reflexivity.
Qed.

(** ** Counting a download *)

(** A row-wise update that keeps the key commutes with a look-up by key. *)
Lemma find_map_keeping_key {A : Set} (key : A -> Z) (upd : A -> A)
  (i : Z) (rows : list A) :
  (forall r, key (upd r) = key r) ->
  find (fun x => key x =? i) (map upd rows)
  = option_map upd (find (fun x => key x =? i) rows).
Proof.
  intros Hkey. induction rows as [|r rows IH]; simpl; [reflexivity|].
  rewrite Hkey. now destruct (key r =? i).
Qed.

Lemma same_key_same_row {A : Set} (key : A -> Z) (rows : list A) (r r' : A) :
  NoDup (map key rows) -> In r rows -> In r' rows -> key r = key r' -> r = r'.
Proof.
  intros Hnd Hin Hin' Hkey.
  pose proof (find_by_key key rows r Hnd Hin) as Hr.
  pose proof (find_by_key key rows r' Hnd Hin') as Hr'.
  rewrite Hkey in Hr. congruence.
Qed.

(** C10. Under the primary key of [files], [increment_download_count] on
    the key of a stored file returns [True] and leaves a session in which
    that file has its download count raised by one and every other field as
    before, every other row of [files] is in its place unchanged, and
    [users] is unchanged; on a key that is not stored it returns [False] and
    the session is the one it was given. *)
Theorem increment_download_count_frame (db : Session) (file_id : Z) :
  primary_key db ->
  match get_file_by_id db file_id with
  | Some file =>
      fst (increment_download_count db file_id) = true
      /\ (let db' := snd (increment_download_count db file_id) in
          (exists file',
              get_file_by_id db' file_id = Some file'
              /\ File.downloads_count file' = File.downloads_count file + 1
              /\ File.id file' = File.id file
              /\ File.owner_id file' = File.owner_id file
              /\ File.department_id file' = File.department_id file
              /\ File.visibility file' = File.visibility file
              /\ File.file_path file' = File.file_path file
              /\ File.filename file' = File.filename file
              /\ File.size file' = File.size file
              /\ File.created_at file' = File.created_at file)
          /\ (forall n row, nth_error (files db) n = Some row -> row <> file ->
                nth_error (files db') n = Some row)
          /\ List.length (files db') = List.length (files db)
          /\ users db' = users db)
  | None => increment_download_count db file_id = (false, db)
  end.
Proof.
  intros [_ Hnd]. unfold get_file_by_id, increment_download_count.
  destruct (find (fun f => File.id f =? file_id) (files db)) as [file|] eqn:Hfound;
    [|reflexivity].
  destruct (find_some _ _ Hfound) as [Hin Hid]. apply Z.eqb_eq in Hid.
  simpl. split; [reflexivity|]. repeat split.
  - exists (File.set_downloads_count file (File.downloads_count file + 1)).
    rewrite find_map_keeping_key
      by (intros r; destruct (File.id r =? File.id file); reflexivity).
    rewrite Hfound. simpl. rewrite Z.eqb_refl. repeat split.
  - intros n row Hnth Hne. rewrite nth_error_map, Hnth. simpl.
    destruct (Z.eqb_spec (File.id row) (File.id file)) as [Hsame|_];
      [|reflexivity].
    exfalso. apply Hne.
    apply (same_key_same_row File.id (files db)); auto.
    eapply nth_error_In; eauto.
  - apply length_map.
Qed.

(** * Further properties of the code *)

(** Propositional steps that leave the collaborators out of the proof. *)
Ltac without_collaborators :=
  try clear get_password_hash; try clear getenv; try clear int_of_str;
  try clear splitext; try clear lower; try clear path_join;
  try clear uuid4; try clear now; try clear write_file;
  try clear remove_file.
Ltac prop := without_collaborators; tauto.

(** ** The two role checks *)

(** X1. [require_role] lets through exactly the callers whose role is the
    required one, and every ADMIN. [require_role_or_higher] lets through
    everyone [require_role] does and, besides, a MANAGER where USER is
    required, and no one else. *)
Theorem require_role_exact
  (required_role : UserRole) (current_user : User.t) :
  (require_role required_role current_user = Ok current_user
   <-> User.role current_user = required_role
       \/ User.role current_user = ADMIN)
  /\ (require_role required_role current_user = Ok current_user
      \/ require_role required_role current_user
         = Raise (HTTPException HTTP_403_FORBIDDEN
                    (role_required_detail required_role)))
  /\ (require_role_or_higher required_role current_user = Ok current_user
      <-> require_role required_role current_user = Ok current_user
          \/ (User.role current_user = MANAGER /\ required_role = USER)).
Proof.
  unfold require_role, require_role_or_higher.
  destruct required_role, (User.role current_user); simpl;
    (split; [split; [intros H; (now left) || (now right) || discriminate H
                    | intros [H|H]; (reflexivity || discriminate H)]
            | split; [(now left) || (now right)|]]);
    (split; [intros H; (now left) || (right; now split) || discriminate H
            | intros [H|[H1 H2]];
              (reflexivity || discriminate H || discriminate H1
               || discriminate H2)]).
Qed.

(** X2. [require_role_or_higher] is monotone: a caller who passes a floor
    passes every floor that is not higher, and so does every caller whose
    role is not lower. *)
Theorem require_role_or_higher_monotone
  (required_role required_role' : UserRole) (u u' : User.t) :
  dict_get role_hierarchy required_role' 0
  <= dict_get role_hierarchy required_role 0 ->
  dict_get role_hierarchy (User.role u) 0
  <= dict_get role_hierarchy (User.role u') 0 ->
  require_role_or_higher required_role u = Ok u ->
  require_role_or_higher required_role' u' = Ok u'.
Proof.
  unfold require_role_or_higher. intros Hfloor Hrank.
  destruct (Z.ltb_spec (dict_get role_hierarchy (User.role u) 0)
              (dict_get role_hierarchy required_role 0)); [discriminate|].
  intros _.
  destruct (Z.ltb_spec (dict_get role_hierarchy (User.role u') 0)
              (dict_get role_hierarchy required_role' 0)); [lia|reflexivity].
Qed.


(** ** The writes of crud.py *)

Lemma next_id_above (ids : list Z) (i : Z) : In i ids -> i < next_id ids.
Proof.
  unfold next_id. induction ids as [|j ids IH]; cbn [fold_right In];
    [contradiction|].
  intros [-> | Hin]; [lia|]. specialize (IH Hin). lia.
Qed.

Lemma find_snoc {A : Set} (p : A -> bool) (rows : list A) (x : A) :
  find p (rows ++ [x]) =
  match find p rows with
  | Some y => Some y
  | None => if p x then Some x else None
  end.
Proof.
  induction rows as [|r rows IH]; simpl; [reflexivity|].
  now destruct (p r).
Qed.

Lemma find_fresh_key {A : Set} (key : A -> Z) (rows : list A) (i : Z) :
  ~ In i (map key rows) -> find (fun x => key x =? i) rows = None.
Proof.
  induction rows as [|r rows IH]; simpl; intros Hfresh; [reflexivity|].
  destruct (Z.eqb_spec (key r) i) as [Heq|_]; [|apply IH]; prop.
Qed.

Lemma find_after_delete {A : Set} (key : A -> Z) (rows : list A) (i j : Z) :
  find (fun x => key x =? i) (filter (fun r => negb (key r =? j)) rows)
  = if i =? j then None else find (fun x => key x =? i) rows.
Proof.
  induction rows as [|r rows IH]; simpl; [now destruct (i =? j)|].
  destruct (Z.eqb_spec (key r) j) as [Hj|Hj]; simpl.
  - rewrite IH. destruct (Z.eqb_spec i j) as [_|Hij]; [reflexivity|].
    destruct (Z.eqb_spec (key r) i); [congruence|reflexivity].
  - rewrite IH. destruct (Z.eqb_spec (key r) i) as [Hi|_]; [|reflexivity].
    destruct (Z.eqb_spec i j); [congruence|reflexivity].
Qed.

Lemma map_keeping {A : Set} {K : Type} (key : A -> K) (upd : A -> A)
  (rows : list A) :
  (forall r, key (upd r) = key r) -> map key (map upd rows) = map key rows.
Proof.
  intros Hkey. rewrite map_map. apply map_ext. exact Hkey.
Qed.

Lemma NoDup_keys_filter {A : Set} (key : A -> Z) (p : A -> bool)
  (rows : list A) :
  NoDup (map key rows) -> NoDup (map key (filter p rows)).
Proof.
  induction rows as [|r rows IH]; simpl; intros Hnd; [constructor|].
  inversion Hnd as [|k ks Hnotin Hnd']; subst.
  destruct (p r); simpl; [|auto].
  constructor; [|auto].
  intros Hin. apply Hnotin. apply in_map_iff in Hin.
  destruct Hin as (x & Hx & Hin). apply filter_In in Hin.
  apply in_map_iff. exists x. prop.
Qed.

Lemma NoDup_keys_snoc {A : Set} (key : A -> Z) (rows : list A) (x : A) :
  NoDup (map key rows) -> ~ In (key x) (map key rows) ->
  NoDup (map key (rows ++ [x])).
Proof.
  intros Hnd Hfresh. rewrite map_app. simpl.
  apply NoDup_app; [assumption | repeat constructor; intros [] |].
  intros a Hin [<- | []]. contradiction.
Qed.

Lemma next_id_fresh (ids : list Z) : ~ In (next_id ids) ids.
Proof. intros Hin. apply next_id_above in Hin. lia. Qed.

(** X3. Every write of [crud.py] keeps [id] a primary key of both tables:
    inserting a user whose username is not yet stored, inserting a file,
    changing a role, deleting a file and counting a download. *)
Theorem crud_keeps_primary_key (db : Session) :
  primary_key db ->
  (forall user, get_user_by_username db (UserCreate.username user) = None ->
      primary_key (snd (create_user db user)))
  /\ (forall file owner_id department_id file_path filename size,
         primary_key (snd (create_file db file owner_id department_id
                             file_path filename size)))
  /\ (forall user_id new_role,
         primary_key (snd (update_user_role db user_id new_role)))
  /\ (forall file_id, primary_key (snd (delete_file db file_id)))
  /\ (forall file_id, primary_key (snd (increment_download_count db file_id))).
Proof.
  intros [Husers Hfiles]. unfold primary_key.
  split; [intros user _; split; simpl; try assumption|repeat split; simpl;
                                                        try assumption].
  - apply NoDup_keys_snoc; [assumption | apply next_id_fresh].
  - apply NoDup_keys_snoc; [assumption | apply next_id_fresh].
  - unfold update_user_role.
    destruct (find _ (users db)); simpl; [|assumption].
    rewrite map_keeping; [assumption|].
    intros r. now destruct (User.id r =? User.id t).
  - unfold update_user_role. now destruct (find _ (users db)).
  - unfold delete_file. now destruct (find _ (files db)).
  - unfold delete_file.
    destruct (find _ (files db)); simpl; [|assumption].
    now apply NoDup_keys_filter.
  - unfold increment_download_count. now destruct (find _ (files db)).
  - unfold increment_download_count.
    destruct (find _ (files db)); simpl; [|assumption].
    rewrite map_keeping; [assumption|].
    intros r. now destruct (File.id r =? File.id t).
Qed.

(** X4. [delete_file] on a stored key returns [True] and leaves a session
    where that key is no longer found, every other key is found as before,
    the rows left are the rows whose key is another one, and [users] is
    unchanged; on a key that is not stored it returns [False] and changes
    nothing. *)
Theorem delete_file_frame (db : Session) (file_id : Z) :
  match get_file_by_id db file_id with
  | Some file =>
      fst (delete_file db file_id) = true
      /\ (let db' := snd (delete_file db file_id) in
          get_file_by_id db' file_id = None
          /\ (forall i, i <> file_id ->
                get_file_by_id db' i = get_file_by_id db i)
          /\ (forall f, In f (files db') <->
                        In f (files db) /\ File.id f <> file_id)
          /\ users db' = users db)
  | None => delete_file db file_id = (false, db)
  end.
Proof.
  unfold get_file_by_id, delete_file.
  destruct (find (fun f => File.id f =? file_id) (files db)) as [file|] eqn:Hfound;
    [|reflexivity].
  destruct (find_some _ _ Hfound) as [_ Hid]. apply Z.eqb_eq in Hid.
  simpl. rewrite Hid. repeat split.
  - rewrite find_after_delete. now rewrite Z.eqb_refl.
  - intros i Hne. rewrite find_after_delete.
    now destruct (Z.eqb_spec i file_id).
  - apply filter_In in H. prop.
  - apply filter_In in H. destruct H as [_ Hkeep].
    destruct (Z.eqb_spec (File.id f) file_id); [discriminate|assumption].
  - intros [Hin Hne]. apply filter_In. split; [assumption|].
    now destruct (Z.eqb_spec (File.id f) file_id).
Qed.


(** X5. [update_user_role] on a stored key returns the user with the new
    role and leaves a session where that key finds the user with the new
    role and every other key finds what it found; only roles differ: the
    keys, usernames, password hashes and departments of [users] are as
    before, and [files] is unchanged. Doing it again changes nothing more.
    On a key that is not stored it returns [None] and changes nothing. *)
Theorem update_user_role_frame
  (db : Session) (user_id : Z) (new_role : UserRole) :
  match get_user_by_id db user_id with
  | Some user =>
      let updated := User.set_role user new_role in
      let db' := snd (update_user_role db user_id new_role) in
      fst (update_user_role db user_id new_role) = Some updated
      /\ get_user_by_id db' user_id = Some updated
      /\ (forall i, i <> user_id -> get_user_by_id db' i = get_user_by_id db i)
      /\ map User.id (users db') = map User.id (users db)
      /\ map User.username (users db') = map User.username (users db)
      /\ map User.password_hash (users db')
         = map User.password_hash (users db)
      /\ map User.department_id (users db')
         = map User.department_id (users db)
      /\ files db' = files db
      /\ update_user_role db' user_id new_role = (Some updated, db')
  | None => update_user_role db user_id new_role = (None, db)
  end.
Proof.
  unfold get_user_by_id, update_user_role.
  destruct (find (fun u => User.id u =? user_id) (users db)) as [user|] eqn:Hfound;
    [|reflexivity].
  destruct (find_some _ _ Hfound) as [_ Hid]. apply Z.eqb_eq in Hid.
  set (upd := fun r => if User.id r =? User.id user
                       then User.set_role r new_role else r).
  assert (Hkey : forall r, User.id (upd r) = User.id r)
    by (intros r; unfold upd; now destruct (User.id r =? User.id user)).
  assert (Hlookup : find (fun u => User.id u =? user_id) (map upd (users db))
                    = Some (User.set_role user new_role)).
  { rewrite (find_map_keeping_key User.id upd user_id (users db) Hkey), Hfound.
    simpl. unfold upd. now rewrite Z.eqb_refl. }
  cbn zeta. simpl. fold upd.
  split; [reflexivity|]. split; [exact Hlookup|]. split.
  { intros i Hne.
    rewrite (find_map_keeping_key User.id upd i (users db) Hkey).
    destruct (find (fun u => User.id u =? i) (users db)) as [r|] eqn:Hr;
      [|reflexivity].
    destruct (find_some _ _ Hr) as [_ Hri]. apply Z.eqb_eq in Hri.
    simpl. unfold upd.
    destruct (Z.eqb_spec (User.id r) (User.id user)); [congruence|reflexivity]. }
  split; [now apply map_keeping|].
  split; [apply map_keeping; intros r; unfold upd;
          now destruct (User.id r =? User.id user)|].
  split; [apply map_keeping; intros r; unfold upd;
          now destruct (User.id r =? User.id user)|].
  split; [apply map_keeping; intros r; unfold upd;
          now destruct (User.id r =? User.id user)|].
  split; [reflexivity|].
  rewrite Hlookup. simpl. f_equal. unfold with_users. simpl. f_equal.
  rewrite map_map. apply map_ext. intros r. unfold upd.
  destruct (User.id r =? User.id user) eqn:Hr; simpl; rewrite Hr; reflexivity.
Qed.

Lemma create_file_found
  (db db' : Session) (file : FileCreate.t) (owner_id department_id : Z)
  (file_path filename : string) (size : Z) (f : File.t) :
  create_file db file owner_id department_id file_path filename size = (f, db') ->
  get_file_by_id db' (File.id f) = Some f
  /\ files db' = (files db ++ [f])%list
  /\ File.owner_id f = owner_id
  /\ File.department_id f = department_id
  /\ File.visibility f = FileCreate.visibility file.
Proof.
  unfold create_file. intros Hcreated. injection Hcreated as <- <-.
  split; [|repeat split].
  unfold get_file_by_id. cbn [files with_files File.id].
  rewrite find_snoc, (find_fresh_key File.id) by apply next_id_fresh.
  cbn [File.id]. now rewrite Z.eqb_refl.
Qed.

(** X6. [create_file] gives the new row a key no stored row has, appends
    it, and the new key finds it; every key that found a row finds the same
    row; the new row carries the owner, department, visibility, path, name
    and size that were passed and a download count of zero. *)
Theorem create_file_lookup
  (db : Session) (file : FileCreate.t) (owner_id department_id : Z)
  (file_path filename : string) (size : Z) :
  let new_file :=
    fst (create_file db file owner_id department_id file_path filename size) in
  let db' :=
    snd (create_file db file owner_id department_id file_path filename size) in
  get_file_by_id db (File.id new_file) = None
  /\ get_file_by_id db' (File.id new_file) = Some new_file
  /\ (forall i f, get_file_by_id db i = Some f -> get_file_by_id db' i = Some f)
  /\ files db' = (files db ++ [new_file])%list
  /\ users db' = users db
  /\ File.owner_id new_file = owner_id
  /\ File.department_id new_file = department_id
  /\ File.visibility new_file = FileCreate.visibility file
  /\ File.file_path new_file = file_path
  /\ File.filename new_file = filename
  /\ File.size new_file = size
  /\ File.downloads_count new_file = 0.
Proof.
  cbn zeta. unfold get_file_by_id. cbn [create_file fst snd files with_files
                                          users File.id].
  assert (Hfresh : find (fun f => File.id f =? next_id (map File.id (files db)))
                     (files db) = None)
    by (apply find_fresh_key, next_id_fresh).
  split; [exact Hfresh|]. split.
  - rewrite find_snoc, Hfresh. cbn [File.id]. now rewrite Z.eqb_refl.
  - split; [|repeat split].
    intros i f Hf. rewrite find_snoc. now rewrite Hf.
Qed.

(** X7. [create_user], for a username that is not yet stored, gives the
    new row a key no stored row has and appends it; the new key and the
    username both find it; every key and every username that found a row
    finds the same row; usernames stay unique; the row holds the hash of
    the password, not the password, and the role and department asked. *)
Theorem create_user_lookup (db : Session) (user : UserCreate.t) :
  get_user_by_username db (UserCreate.username user) = None ->
  let new_user := fst (create_user db user) in
  let db' := snd (create_user db user) in
  get_user_by_id db (User.id new_user) = None
  /\ get_user_by_id db' (User.id new_user) = Some new_user
  /\ get_user_by_username db' (UserCreate.username user) = Some new_user
  /\ (forall i u, get_user_by_id db i = Some u -> get_user_by_id db' i = Some u)
  /\ (forall name u, get_user_by_username db name = Some u ->
                     get_user_by_username db' name = Some u)
  /\ (unique_usernames db -> unique_usernames db')
  /\ users db' = (users db ++ [new_user])%list
  /\ files db' = files db
  /\ User.password_hash new_user = get_password_hash (UserCreate.password user)
  /\ User.role new_user = UserCreate.role user
  /\ User.department_id new_user = UserCreate.department_id user.
Proof.
  intros Hname. cbn zeta.
  unfold get_user_by_id, get_user_by_username, unique_usernames in *.
  cbn [create_user fst snd users with_users files User.id User.username].
  assert (Hfresh : find (fun u => User.id u =? next_id (map User.id (users db)))
                     (users db) = None)
    by (apply find_fresh_key, next_id_fresh).
  split; [exact Hfresh|]. split.
  { rewrite find_snoc, Hfresh. cbn [User.id]. now rewrite Z.eqb_refl. }
  split.
  { rewrite find_snoc, Hname. cbn [User.username]. now rewrite String.eqb_refl. }
  split.
  { intros i u Hu. now rewrite find_snoc, Hu. }
  split.
  { intros name u Hu. now rewrite find_snoc, Hu. }
  split; [|repeat split].
  intros Hnd. rewrite map_app. cbn [map User.username].
  apply NoDup_app; [assumption | repeat constructor; intros [] |].
  intros a Hin [<- | []].
  apply in_map_iff in Hin. destruct Hin as (u & Hu & Hin).
  pose proof (find_none _ _ Hname u Hin) as Hno. cbn beta in Hno.
  rewrite Hu, String.eqb_refl in Hno. discriminate.
Qed.


(** ** Uploads by a USER *)

Lemma settings_allowed_user :
  settings "ALLOWED_FILE_TYPES_USER" = Ok (ListValue [".pdf"]).
Proof. reflexivity. Qed.

Lemma settings_upload_dir :
  settings "UPLOAD_DIR" = Ok (StrValue (getenv "UPLOAD_DIR" "/app/uploads")).
Proof. reflexivity. Qed.

Lemma check_file_type_user (file : UploadFile.t) (current_user : User.t) :
  User.role current_user = USER ->
  check_file_type file current_user =
  let file_extension := lower (snd (splitext (UploadFile.filename file))) in
  if String.eqb file_extension ".pdf" then Ok tt
  else Raise (HTTPException HTTP_400_BAD_REQUEST
                ("File type " ++ file_extension ++ " not allowed for USER role")).
Proof.
  intros Hrole. unfold check_file_type. rewrite Hrole.
  cbn [UserRole_eqb]. cbn zeta. unfold check_allowed_type.
  rewrite settings_allowed_user. cbn [contains existsb].
  rewrite orb_false_r.
  now destruct (String.eqb _ ".pdf").
Qed.

(** The handler, run for a USER. *)
Lemma upload_file_by_user
  (file : UploadFile.t) (visibility : FileVisibility)
  (current_user : User.t) (db : Session) :
  User.role current_user = USER ->
  let declared_too_large :=
    match UploadFile.size file with
    | Some n => negb (n =? 0) && (n >? 10 * 1024 * 1024)
    | None => false
    end in
  let extension := snd (splitext (UploadFile.filename file)) in
  let file_path :=
    path_join (getenv "UPLOAD_DIR" "/app/uploads") (uuid4 ++ extension) in
  upload_file file visibility current_user db =
  if declared_too_large then
    (Raise (HTTPException HTTP_413_REQUEST_ENTITY_TOO_LARGE
              "File size exceeds maximum allowed size for your role"), db)
  else if negb (String.eqb (lower extension) ".pdf") then
    (Raise (HTTPException HTTP_400_BAD_REQUEST
              ("File type " ++ lower extension
               ++ " not allowed for USER role")), db)
  else if negb (FileVisibility_eqb visibility PRIVATE) then
    (Raise (HTTPException HTTP_403_FORBIDDEN
              "USER role can only create PRIVATE files"), db)
  else
    match write_file file_path (UploadFile.content file) with
    | Some e =>
        (Raise (HTTPException HTTP_500_INTERNAL_SERVER_ERROR
                  ("Failed to save file: " ++ e)), db)
    | None =>
        let created :=
          create_file db (FileCreate.mk PRIVATE)
            (User.id current_user) (User.department_id current_user)
            file_path (UploadFile.filename file)
            (Z.of_nat (List.length (UploadFile.content file))) in
        (Ok (fst created), snd created)
    end.
Proof.
  intros Hrole. cbn zeta. unfold upload_file.
  unfold bind at 1. unfold depends at 1.
  rewrite check_file_size_limit, Hrole. cbn zeta.
  destruct (match UploadFile.size file with
            | Some n => negb (n =? 0) && (n >? 10 * 1024 * 1024)
            | None => false
            end) eqn:Hlarge.
  { destruct (UploadFile.size file) as [n|]; [|discriminate].
    now rewrite Hlarge. }
  assert (Hsize : match UploadFile.size file with
                  | Some size =>
                      if negb (size =? 0) && (size >? 10 * 1024 * 1024)
                      then Raise (HTTPException HTTP_413_REQUEST_ENTITY_TOO_LARGE
                                    "File size exceeds maximum allowed size for your role")
                      else Ok tt
                  | None => Ok tt
                  end = Ok tt).
  { destruct (UploadFile.size file) as [n|]; [|reflexivity]. now rewrite Hlarge. }
  rewrite Hsize.
  unfold bind at 1. unfold depends at 1.
  rewrite (check_file_type_user file current_user Hrole). cbn zeta.
  destruct (String.eqb (lower (snd (splitext (UploadFile.filename file))))
              ".pdf"); cbn [negb]; [|reflexivity].
  unfold bind at 1. unfold depends at 1.
  unfold check_visibility. rewrite Hrole. cbn [UserRole_eqb andb].
  destruct visibility; cbn [FileVisibility_eqb negb]; try reflexivity.
  unfold save_upload, bind, depends, commit, raise.
  rewrite settings_upload_dir.
  now destruct (write_file _ _).
Qed.

(** X8. What [upload_file] answers a USER, in the order the handler
    checks: a declared size that is present, not zero and above ten
    megabytes is refused with 413; otherwise an extension that, lowercased,
    is not [.pdf] is refused with 400; otherwise a visibility other than
    PRIVATE is refused with 403; otherwise a failed write is answered with
    500; in all four cases nothing is stored. Otherwise the file record is
    created for the caller, under the caller's department, with the length
    of the content as its size. *)
Theorem user_upload_outcome
  (file : UploadFile.t) (visibility : FileVisibility)
  (current_user : User.t) (db : Session) :
  User.role current_user = USER ->
  let declared_too_large :=
    match UploadFile.size file with
    | Some n => negb (n =? 0) && (n >? 10 * 1024 * 1024)
    | None => false
    end in
  let extension := snd (splitext (UploadFile.filename file)) in
  let file_path :=
    path_join (getenv "UPLOAD_DIR" "/app/uploads") (uuid4 ++ extension) in
  upload_file file visibility current_user db =
  if declared_too_large then
    (Raise (HTTPException HTTP_413_REQUEST_ENTITY_TOO_LARGE
              "File size exceeds maximum allowed size for your role"), db)
  else if negb (String.eqb (lower extension) ".pdf") then
    (Raise (HTTPException HTTP_400_BAD_REQUEST
              ("File type " ++ lower extension
               ++ " not allowed for USER role")), db)
  else if negb (FileVisibility_eqb visibility PRIVATE) then
    (Raise (HTTPException HTTP_403_FORBIDDEN
              "USER role can only create PRIVATE files"), db)
  else
    match write_file file_path (UploadFile.content file) with
    | Some e =>
        (Raise (HTTPException HTTP_500_INTERNAL_SERVER_ERROR
                  ("Failed to save file: " ++ e)), db)
    | None =>
        let created :=
          create_file db (FileCreate.mk PRIVATE)
            (User.id current_user) (User.department_id current_user)
            file_path (UploadFile.filename file)
            (Z.of_nat (List.length (UploadFile.content file))) in
        (Ok (fst created), snd created)
    end.
Proof. exact (upload_file_by_user file visibility current_user db). Qed.

Lemma privileged_upload_raises
  (file : UploadFile.t) (visibility : FileVisibility)
  (current_user : User.t) (db : Session) :
  User.role current_user <> USER ->
  snd (upload_file file visibility current_user db) = db
  /\ allows (fst (upload_file file visibility current_user db)) = false.
Proof.
  intros Hrole. unfold upload_file.
  unfold bind at 1. unfold depends at 1.
  destruct (check_file_size file current_user) as [[]|e];
    [|split; reflexivity].
  unfold bind at 1. unfold depends at 1.
  unfold check_file_type.
  destruct (User.role current_user); [contradiction| |]; split; reflexivity.
Qed.

(** X9. Whoever calls [upload_file], with whatever file and visibility, it
    either leaves the session as it was or appends one row to [files]: a
    PRIVATE file owned by the caller, of the caller's department, not yet
    downloaded, the caller being a USER. No DEPARTMENT and no PUBLIC file
    is ever stored. *)
Theorem upload_stores_private_only
  (file : UploadFile.t) (visibility : FileVisibility)
  (current_user : User.t) (db : Session) :
  let db' := snd (upload_file file visibility current_user db) in
  (db' = db /\ allows (fst (upload_file file visibility current_user db)) = false)
  \/ (exists f,
         fst (upload_file file visibility current_user db) = Ok f
         /\ files db' = (files db ++ [f])%list
         /\ users db' = users db
         /\ User.role current_user = USER
         /\ visibility = PRIVATE
         /\ File.visibility f = PRIVATE
         /\ File.owner_id f = User.id current_user
         /\ File.department_id f = User.department_id current_user
         /\ File.downloads_count f = 0).
Proof.
  cbn zeta. destruct (User.role current_user) eqn:Hrole.
  - rewrite (upload_file_by_user file visibility current_user db Hrole).
    cbn zeta.
    destruct (match UploadFile.size file with
              | Some n => negb (n =? 0) && (n >? 10 * 1024 * 1024)
              | None => false
              end); [now left|].
    destruct (negb (String.eqb _ ".pdf")); [now left|].
    destruct visibility; simpl; try (now left).
    destruct (write_file _ _); [now left|].
    right. eexists. split; [reflexivity|]. repeat split.
  - left. apply privileged_upload_raises. congruence.
  - left. apply privileged_upload_raises. congruence.
Qed.


(** An upload that was accepted, read backwards. *)
Lemma upload_accepted
  (file : UploadFile.t) (visibility : FileVisibility)
  (current_user : User.t) (db db' : Session) (f : File.t) :
  upload_file file visibility current_user db = (Ok f, db') ->
  User.role current_user = USER
  /\ get_file_by_id db' (File.id f) = Some f
  /\ files db' = (files db ++ [f])%list
  /\ File.visibility f = PRIVATE
  /\ File.owner_id f = User.id current_user
  /\ File.department_id f = User.department_id current_user.
Proof.
  intros Hrun.
  destruct (User.role current_user) eqn:Hrole.
  - rewrite (upload_file_by_user file visibility current_user db Hrole) in Hrun.
    cbn zeta in Hrun.
    destruct (match UploadFile.size file with
              | Some n => negb (n =? 0) && (n >? 10 * 1024 * 1024)
              | None => false
              end); [discriminate|].
    destruct (negb (String.eqb _ ".pdf")); [discriminate|].
    destruct (negb (FileVisibility_eqb visibility PRIVATE)); [discriminate|].
    destruct (write_file _ _); [discriminate|].
    remember (create_file _ _ _ _ _ _ _) as created eqn:Hcreated.
    destruct created as [f0 db0]. cbn [fst snd] in Hrun.
    injection Hrun as -> ->. symmetry in Hcreated.
    apply create_file_found in Hcreated.
    cbn [FileCreate.visibility] in Hcreated. split; [reflexivity|]. prop.
  - assert (Hne : User.role current_user <> USER) by congruence.
    destruct (privileged_upload_raises file visibility current_user db Hne)
      as [_ Hraise].
    rewrite Hrun in Hraise. discriminate.
  - assert (Hne : User.role current_user <> USER) by congruence.
    destruct (privileged_upload_raises file visibility current_user db Hne)
      as [_ Hraise].
    rewrite Hrun in Hraise. discriminate.
Qed.

(** X10. A file [upload_file] accepted is at once within reach of the
    uploader, who may view it and delete it and whose listing is the old
    one with the file at its end; every other USER may neither view nor
    delete it and has the listing they had; a MANAGER or an ADMIN has the
    file at the end of theirs. *)
Theorem uploader_reaches_upload
  (file : UploadFile.t) (visibility : FileVisibility)
  (current_user : User.t) (db db' : Session) (f : File.t) :
  upload_file file visibility current_user db = (Ok f, db') ->
  can_access_file (File.id f) current_user db' = Ok f
  /\ can_delete_file (File.id f) current_user db' = Ok f
  /\ get_accessible_files db' current_user
     = (get_accessible_files db current_user ++ [f])%list
  /\ (forall other,
         User.role other = USER -> User.id other <> User.id current_user ->
         decision (can_access_file (File.id f) other db')
         = Deny Forbidden_Visibility
         /\ decision (can_delete_file (File.id f) other db')
            = Deny Forbidden_Ownership
         /\ get_accessible_files db' other = get_accessible_files db other)
  /\ (forall other,
         User.role other <> USER ->
         get_accessible_files db' other
         = (get_accessible_files db other ++ [f])%list).
Proof.
  intros Hrun.
  destruct (upload_accepted _ _ _ _ _ _ Hrun)
    as (Hrole & Hfound & Hfiles & Hvis & Howner & Hdept).
  split; [|split; [|split; [|split]]].
  - unfold can_access_file. rewrite Hfound, Hrole, Hvis, Howner. simpl.
    now rewrite Z.eqb_refl.
  - unfold can_delete_file. rewrite Hfound, Hrole, Howner. simpl.
    now rewrite Z.eqb_refl.
  - unfold get_accessible_files. rewrite Hrole, Hfiles. simpl.
    rewrite filter_app. simpl.
    unfold user_sees at 2. rewrite Hvis, Howner. simpl.
    now rewrite Z.eqb_refl.
  - intros other Hother Hne. apply Z.eqb_neq in Hne.
    rewrite Z.eqb_sym in Hne. repeat split.
    + unfold can_access_file. rewrite Hfound, Hother, Hvis, Howner. simpl.
      now rewrite Hne.
    + unfold can_delete_file. rewrite Hfound, Hother, Howner. simpl.
      now rewrite Hne.
    + unfold get_accessible_files. rewrite Hother, Hfiles. simpl.
      rewrite filter_app. simpl.
      unfold user_sees at 2. rewrite Hvis, Howner. simpl.
      rewrite Hne. now rewrite app_nil_r.
  - intros other Hother. unfold get_accessible_files. rewrite Hfiles.
    destruct (User.role other); [contradiction| |]; reflexivity.
Qed.


(** ** Downloading and deleting through the handlers *)

Lemma can_access_file_ok (db : Session) (file_id : Z)
  (current_user : User.t) (f : File.t) :
  can_access_file file_id current_user db = Ok f ->
  get_file_by_id db file_id = Some f.
Proof.
  unfold can_access_file.
  destruct (get_file_by_id db file_id) as [file|]; [|discriminate].
  repeat match goal with
         | |- context [if ?b then _ else _] => destruct b
         end; congruence.
Qed.

Lemma can_delete_file_ok (db : Session) (file_id : Z)
  (current_user : User.t) (f : File.t) :
  can_delete_file file_id current_user db = Ok f ->
  get_file_by_id db file_id = Some f.
Proof.
  unfold can_delete_file.
  destruct (get_file_by_id db file_id) as [file|]; [|discriminate].
  repeat match goal with
         | |- context [if ?b then _ else _] => destruct b
         end; congruence.
Qed.

Lemma counted_lookup (db : Session) (file_id : Z) (f : File.t) :
  get_file_by_id db file_id = Some f ->
  get_file_by_id (snd (increment_download_count db file_id)) file_id
  = Some (File.set_downloads_count f (File.downloads_count f + 1)).
Proof.
  unfold get_file_by_id, increment_download_count. intros Hfound.
  rewrite Hfound. cbn [snd files with_files].
  rewrite find_map_keeping_key
    by (intros r; now destruct (File.id r =? File.id f)).
  rewrite Hfound. destruct (find_some _ _ Hfound) as [_ Hid].
  simpl. now rewrite Z.eqb_refl.
Qed.

(** X11. [download_file] counts a download exactly when it serves one: if
    [can_access_file] hands over the file, the answer carries the path and
    name of that file and, in the session left, the file has one download
    more and [users] is as before; if [can_access_file] refuses, the same
    refusal is the answer and the session is unchanged. *)
Theorem download_counts_when_served
  (db : Session) (file_id : Z) (current_user : User.t) :
  match can_access_file file_id current_user db with
  | Ok f =>
      fst (download_file file_id current_user db)
      = Ok {| FileResponse.path := File.file_path f;
              FileResponse.filename := File.filename f;
              FileResponse.media_type := "application/octet-stream" |}
      /\ get_file_by_id (snd (download_file file_id current_user db)) file_id
         = Some (File.set_downloads_count f (File.downloads_count f + 1))
      /\ users (snd (download_file file_id current_user db)) = users db
  | Raise e => download_file file_id current_user db = (Raise e, db)
  end.
Proof.
  destruct (can_access_file file_id current_user db) as [f|e] eqn:Hcheck.
  - pose proof (can_access_file_ok _ _ _ _ Hcheck) as Hfound.
    pose proof (counted_lookup db file_id f Hfound) as Hcount.
    unfold download_file.
    rewrite (run_depends_ok _ _ db f Hcheck).
    unfold bind, commit, ret.
    destruct (increment_download_count db file_id) as [ok db'] eqn:Hinc.
    cbn [fst snd] in *. split; [reflexivity|]. split; [exact Hcount|].
    unfold increment_download_count in Hinc.
    unfold get_file_by_id in Hfound. rewrite Hfound in Hinc.
    now injection Hinc as _ <-.
  - unfold download_file. now apply run_depends_raise.
Qed.

(** X12. [delete_file_endpoint]: a refusal of [can_delete_file] is the
    answer and nothing is deleted; if removing the file from the disk
    fails the answer is 500 and the record stays; otherwise the answer is
    the success message and the key is no longer found, so that every
    later view, by anyone, ends in NotFound. The handler never answers
    that the record could not be deleted. *)
Theorem delete_endpoint_outcome
  (db : Session) (file_id : Z) (current_user : User.t) :
  match can_delete_file file_id current_user db with
  | Raise e => delete_file_endpoint file_id current_user db = (Raise e, db)
  | Ok f =>
      match remove_file (File.file_path f) with
      | Some e =>
          delete_file_endpoint file_id current_user db
          = (Raise (HTTPException HTTP_500_INTERNAL_SERVER_ERROR
                      ("Failed to delete file from disk: " ++ e)), db)
      | None =>
          let db' := snd (delete_file_endpoint file_id current_user db) in
          fst (delete_file_endpoint file_id current_user db)
          = Ok "File deleted successfully"
          /\ get_file_by_id db' file_id = None
          /\ (forall anyone,
                 decision (can_access_file file_id anyone db') = Deny NotFound)
          /\ (forall i, i <> file_id ->
                get_file_by_id db' i = get_file_by_id db i)
      end
  end.
Proof.
  destruct (can_delete_file file_id current_user db) as [f|e] eqn:Hcheck.
  - pose proof (can_delete_file_ok _ _ _ _ Hcheck) as Hfound.
    unfold delete_file_endpoint.
    rewrite (run_depends_ok _ _ db f Hcheck).
    destruct (remove_file (File.file_path f)) as [e|]; [reflexivity|].
    unfold bind, commit, ret, raise.
    unfold delete_file. unfold get_file_by_id in Hfound. rewrite Hfound.
    destruct (find_some _ _ Hfound) as [_ Hid]. apply Z.eqb_eq in Hid.
    cbn [fst snd]. unfold get_file_by_id. cbn [files with_files].
    assert (Hgone : find (fun g => File.id g =? file_id)
                      (filter (fun r => negb (File.id r =? File.id f))
                         (files db)) = None)
      by (rewrite find_after_delete, Hid; now rewrite Z.eqb_refl).
    split; [reflexivity|]. split; [exact Hgone|]. split.
    + intros anyone. unfold can_access_file, get_file_by_id.
      cbn [files with_files]. now rewrite Hgone.
    + intros i Hne. rewrite find_after_delete, Hid.
      now destruct (Z.eqb_spec i file_id).
  - unfold delete_file_endpoint. now apply run_depends_raise.
Qed.

(** X13. With the file found, whoever may delete it may also view it, but
    for one case: a USER who owns a DEPARTMENT file of a department other
    than their own may delete the file and may not view it. *)
Theorem delete_without_view
  (db : Session) (file_id : Z) (current_user : User.t) (f : File.t) :
  get_file_by_id db file_id = Some f ->
  (allows (can_delete_file file_id current_user db) = true
   /\ allows (can_access_file file_id current_user db) = false)
  <-> (User.role current_user = USER
       /\ File.owner_id f = User.id current_user
       /\ File.visibility f = DEPARTMENT
       /\ File.department_id f <> User.department_id current_user).
Proof.
  intros Hfound. unfold can_delete_file, can_access_file. rewrite Hfound.
  destruct (User.role current_user); simpl.
  - destruct (Z.eqb_spec (File.owner_id f) (User.id current_user)) as [Ho|Ho];
      destruct (Z.eqb_spec (File.department_id f)
                  (User.department_id current_user)) as [Hd|Hd];
      destruct (File.visibility f); simpl;
      (split; [intros [H1 H2]; try discriminate H1; try discriminate H2;
               repeat split; assumption
              | intros (_ & H1 & H2 & H3);
                try discriminate H2; try contradiction;
                split; reflexivity]).
  - split; [intros [_ H]; discriminate H | intros [H _]; discriminate H].
  - split; [intros [_ H]; discriminate H | intros [H _]; discriminate H].
Qed.


(** ** Users: listing, viewing, changing roles *)

Lemma get_user_by_id_member (db : Session) (t : User.t) :
  primary_key db -> In t (users db) -> get_user_by_id db (User.id t) = Some t.
Proof. intros [Hnd _] Hin. now apply (find_by_key User.id). Qed.

Lemma get_user_info_allows (db : Session) (current_user t : User.t) :
  get_user_by_id db (User.id t) = Some t ->
  allows (fst (get_user_info (User.id t) current_user db))
  = match User.role current_user with
    | USER => false
    | MANAGER => User.department_id t =? User.department_id current_user
    | ADMIN => true
    end.
Proof.
  intros Hfound. unfold get_user_info, bind, depends, raise, ret.
  rewrite floor_manager.
  destruct current_user as [uid uname hash [] dept]; simpl; try reflexivity;
    rewrite Hfound; simpl; try reflexivity.
  now destruct (User.department_id t =? dept).
Qed.

(** X14. For a caller who passes the floor, and under the primary key of
    [users], [list_users] answers with the table filtered, in table order,
    by [get_user_info] run on the key of each row: every user for an ADMIN,
    the users of the manager's department for a MANAGER. The session is
    left as it was. *)
Theorem user_listing_agrees_with_view (db : Session) (current_user : User.t) :
  primary_key db ->
  User.role current_user <> USER ->
  list_users current_user db =
    (Ok (filter (fun t => allows (fst (get_user_info (User.id t) current_user db)))
           (users db)), db)
  /\ (User.role current_user = ADMIN ->
      fst (list_users current_user db) = Ok (users db))
  /\ (User.role current_user = MANAGER ->
      forall t, In t (filter (fun t => allows (fst (get_user_info (User.id t)
                                                      current_user db)))
                        (users db))
                <-> In t (users db)
                    /\ User.department_id t = User.department_id current_user).
Proof.
  intros Hpk Hfloor.
  assert (Hfilter :
            filter (fun t => allows (fst (get_user_info (User.id t) current_user db)))
              (users db)
            = filter (fun t => match User.role current_user with
                               | USER => false
                               | MANAGER => User.department_id t
                                            =? User.department_id current_user
                               | ADMIN => true
                               end) (users db)).
  { apply filter_ext_in. intros t Hin.
    apply get_user_info_allows. now apply get_user_by_id_member. }
  rewrite Hfilter. clear Hfilter. unfold list_users, bind, depends.
  rewrite floor_manager.
  destruct current_user as [uid uname hash [] dept]; cbn [User.role] in *;
    [contradiction| |].
  - cbn [UserRole_eqb User.department_id]. unfold get_users_by_department.
    split; [reflexivity|]. split; [discriminate|].
    intros _ t. rewrite filter_In, Z.eqb_eq. reflexivity.
  - cbn [UserRole_eqb]. unfold get_all_users.
    rewrite filter_all by reflexivity.
    split; [reflexivity|]. split; [reflexivity|discriminate].
Qed.

(** X15. A call of [update_user_role_endpoint] by anyone but an ADMIN
    never raises a role: in the session it leaves, every user is a user
    that was stored before, unchanged, or a stored user set to USER;
    [files] is unchanged. *)
Theorem only_admin_promotes
  (db : Session) (user_id : Z) (new_role : UserRole) (current_user : User.t) :
  User.role current_user <> ADMIN ->
  let db' := snd (update_user_role_endpoint user_id new_role current_user db) in
  files db' = files db
  /\ (forall r', In r' (users db') ->
        In r' (users db)
        \/ exists r, In r (users db) /\ r' = User.set_role r USER).
Proof.
  intros Hrole. cbn zeta.
  unfold update_user_role_endpoint, bind, depends, raise, ret, commit.
  rewrite floor_manager.
  destruct current_user as [uid uname hash [] dept]; cbn [User.role] in *;
    [split; [reflexivity | now left] | | contradiction].
  cbn [UserRole_eqb User.department_id].
  destruct (get_user_by_id db user_id) as [target|] eqn:Hfound;
    [|split; [reflexivity | now left]].
  destruct (User.department_id target =? dept); cbn [negb];
    [|split; [reflexivity | now left]].
  destruct new_role; cbn [UserRole_eqb negb];
    try (split; [reflexivity | now left]).
  unfold update_user_role. unfold get_user_by_id in Hfound. rewrite Hfound.
  cbn [fst snd]. split; [reflexivity|].
  cbn [users with_users]. intros r' Hin.
  apply in_map_iff in Hin. destruct Hin as (r & Hr & Hin).
  destruct (User.id r =? User.id target); subst r';
    [right; now exists r | now left].
Qed.

(** ** Downloads add up *)

Lemma set_downloads_count_same (f : File.t) :
  File.set_downloads_count f (File.downloads_count f) = f.
Proof. now destruct f. Qed.

(** X16. [n] calls of [increment_download_count] on a stored key, one
    after the other, leave the file found under that key with [n] downloads
    more and its other fields as before; on a key that is not stored they
    leave the session as it was. *)
Theorem downloads_add_up (n : nat) (db : Session) (file_id : Z) :
  match get_file_by_id db file_id with
  | Some f =>
      get_file_by_id (count_downloads n file_id db) file_id
      = Some (File.set_downloads_count f (File.downloads_count f + Z.of_nat n))
  | None => count_downloads n file_id db = db
  end.
Proof.
  destruct (get_file_by_id db file_id) as [f|] eqn:Hfound.
  - induction n as [|n IH].
    + cbn [count_downloads Nat.iter nat_rect Z.of_nat].
      now rewrite Z.add_0_r, set_downloads_count_same.
    + unfold count_downloads in *. rewrite Nat.iter_succ.
      rewrite (counted_lookup _ file_id _ IH).
      unfold File.set_downloads_count. cbn. f_equal. f_equal. lia.
  - induction n as [|n IH]; [reflexivity|].
    unfold count_downloads in *. rewrite Nat.iter_succ, IH.
    unfold increment_download_count. unfold get_file_by_id in Hfound.
    now rewrite Hfound.
Qed.


(** ** Viewing a user, and what a role change answers *)

(** X17. [get_user_info] on a user that exists: an ADMIN is handed the
    user; a MANAGER is handed the user exactly when the user is of the
    manager's department and is otherwise refused with
    Forbidden-Department. The session is never changed. *)
Theorem get_user_info_decision
  (db : Session) (user_id : Z) (current_user target : User.t) :
  get_user_by_id db user_id = Some target ->
  let run := get_user_info user_id current_user db in
  snd run = db
  /\ (User.role current_user = ADMIN -> fst run = Ok target)
  /\ (User.role current_user = MANAGER ->
      (fst run = Ok target
       <-> User.department_id target = User.department_id current_user)
      /\ (User.department_id target <> User.department_id current_user ->
          decision (fst run) = Deny Forbidden_Department)).
Proof.
  intros Hfound. cbn zeta.
  unfold get_user_info, bind, depends, raise, ret. rewrite floor_manager.
  destruct current_user as [uid uname hash [] dept];
    cbn [User.role User.department_id UserRole_eqb]; rewrite ?Hfound.
  - split; [reflexivity|]. split; discriminate.
  - destruct (Z.eqb_spec (User.department_id target) dept) as [Hd|Hd];
      cbn [negb fst snd].
    + split; [reflexivity|]. split; [discriminate|]. intros _.
      split; [split; auto | contradiction].
    + split; [reflexivity|]. split; [discriminate|]. intros _.
      split; [split; [discriminate | contradiction] | reflexivity].
  - split; [reflexivity|]. split; [reflexivity|discriminate].
Qed.

Lemma update_user_role_lookup
  (db : Session) (user_id : Z) (new_role : UserRole) (target : User.t) :
  get_user_by_id db user_id = Some target ->
  let db' := snd (update_user_role db user_id new_role) in
  get_user_by_id db' user_id = Some (User.set_role target new_role)
  /\ (forall i, i <> user_id -> get_user_by_id db' i = get_user_by_id db i)
  /\ files db' = files db.
Proof.
  unfold get_user_by_id, update_user_role. intros Hfound. rewrite Hfound.
  destruct (find_some _ _ Hfound) as [_ Hid]. apply Z.eqb_eq in Hid.
  cbn zeta. cbn [snd users with_users files].
  set (upd := fun r => if User.id r =? User.id target
                       then User.set_role r new_role else r).
  assert (Hkey : forall r, User.id (upd r) = User.id r)
    by (intros r; unfold upd; now destruct (User.id r =? User.id target)).
  split; [|split; [|reflexivity]].
  - rewrite (find_map_keeping_key User.id upd user_id (users db) Hkey), Hfound.
    simpl. unfold upd. now rewrite Z.eqb_refl.
  - intros i Hne.
    rewrite (find_map_keeping_key User.id upd i (users db) Hkey).
    destruct (find (fun u => User.id u =? i) (users db)) as [r|] eqn:Hr;
      [|reflexivity].
    destruct (find_some _ _ Hr) as [_ Hri]. apply Z.eqb_eq in Hri.
    simpl. unfold upd.
    destruct (Z.eqb_spec (User.id r) (User.id target)); [congruence|reflexivity].
Qed.

(** X18. Whenever [update_user_role_endpoint] answers with a user, that
    user is what the key now finds in the session: the user that was
    stored under the key, with the new role; every other key finds what it
    found, and [files] is unchanged. *)
Theorem role_change_answer_is_stored
  (db : Session) (user_id : Z) (new_role : UserRole)
  (current_user updated : User.t) :
  fst (update_user_role_endpoint user_id new_role current_user db) = Ok updated ->
  let db' := snd (update_user_role_endpoint user_id new_role current_user db) in
  get_user_by_id db' user_id = Some updated
  /\ User.role updated = new_role
  /\ (exists target, get_user_by_id db user_id = Some target
                     /\ updated = User.set_role target new_role)
  /\ (forall i, i <> user_id -> get_user_by_id db' i = get_user_by_id db i)
  /\ files db' = files db.
Proof.
  cbn zeta.
  unfold update_user_role_endpoint, bind, depends, raise, ret, commit.
  rewrite floor_manager.
  destruct current_user as [uid uname hash role dept].
  destruct role; cbn -[update_user_role get_user_by_id Z.eqb];
    [discriminate | |];
    (destruct (get_user_by_id db user_id) as [target|] eqn:Hfound;
     [|cbn; discriminate]);
    pose proof (update_user_role_found db user_id new_role target Hfound)
      as Hupd;
    pose proof (update_user_role_lookup db user_id new_role target Hfound)
      as Hlook; cbn zeta in Hlook.
  - destruct (User.department_id target =? dept);
      cbn -[update_user_role get_user_by_id]; [|discriminate].
    destruct new_role; cbn -[update_user_role get_user_by_id];
      try discriminate.
    destruct (update_user_role db user_id USER) as [a d].
    cbn [fst snd] in *. rewrite Hupd. cbn [fst snd].
    intros Hok. injection Hok as <-.
    split; [apply Hlook|]. split; [reflexivity|].
    split; [now exists target | split; apply Hlook].
  - destruct (update_user_role db user_id new_role) as [a d].
    cbn [fst snd] in *. rewrite Hupd. cbn [fst snd].
    intros Hok. injection Hok as <-.
    split; [apply Hlook|]. split; [reflexivity|].
    split; [now exists target | split; apply Hlook].
Qed.


(** ** The listing handler, and the size that is limited *)

(** X19. [list_files] never refuses and leaves the session as it was; its
    [total] is the length of its [files], which are
    [get_accessible_files]: at most as many as are stored, all of them
    for a MANAGER and an ADMIN, and every one of them is a stored file that
    [can_access_file], run on that row, hands to the caller. *)
Theorem list_files_total (db : Session) (current_user : User.t) :
  exists listing,
    list_files current_user db = (Ok listing, db)
    /\ FileListResponse.files listing = get_accessible_files db current_user
    /\ FileListResponse.total listing
       = Z.of_nat (List.length (FileListResponse.files listing))
    /\ FileListResponse.total listing <= Z.of_nat (List.length (files db))
    /\ (User.role current_user <> USER ->
        FileListResponse.total listing = Z.of_nat (List.length (files db)))
    /\ (forall f, In f (FileListResponse.files listing) ->
          In f (files db)
          /\ allows (can_access_file (File.id f) current_user
                       (with_files db [f])) = true).
Proof.
  eexists. split; [reflexivity|]. cbn [FileListResponse.files
                                         FileListResponse.total].
  split; [reflexivity|]. split; [reflexivity|].
  rewrite get_accessible_files_filter. split; [|split].
  - apply inj_le. apply filter_length_le.
  - intros Hrole. f_equal. f_equal. apply filter_all. intros f _.
    destruct (User.role current_user); [contradiction| |]; reflexivity.
  - intros f Hin. apply filter_In in Hin. destruct Hin as [Hin Hsees].
    split; [exact Hin|].
    now rewrite (allows_can_access_file _ _ f (get_file_by_id_alone db f)).
Qed.

(** X20. When the size a request declares is the number of bytes of its
    content, as the multipart parser sets it, no file above the limit of a
    USER is stored: every file [upload_file] accepts is recorded with the
    length of its content as size, at most ten megabytes, and a USER whose
    content is longer is refused with 413, nothing stored. *)
Theorem stored_size_within_limit
  (file : UploadFile.t) (visibility : FileVisibility)
  (current_user : User.t) (db : Session) :
  UploadFile.size file
  = Some (Z.of_nat (List.length (UploadFile.content file))) ->
  (forall f db',
      upload_file file visibility current_user db = (Ok f, db') ->
      File.size f = Z.of_nat (List.length (UploadFile.content file))
      /\ File.size f <= 10 * 1024 * 1024)
  /\ (User.role current_user = USER ->
      Z.of_nat (List.length (UploadFile.content file)) > 10 * 1024 * 1024 ->
      upload_file file visibility current_user db =
      (Raise (HTTPException HTTP_413_REQUEST_ENTITY_TOO_LARGE
                "File size exceeds maximum allowed size for your role"), db)).
Proof.
  intros Hdeclared. split.
  - intros f db' Hrun.
    destruct (User.role current_user) eqn:Hrole.
    + rewrite (upload_file_by_user file visibility current_user db Hrole)
        in Hrun.
      cbn zeta in Hrun. rewrite Hdeclared in Hrun.
      set (n := Z.of_nat (List.length (UploadFile.content file))) in *.
      destruct (negb (n =? 0) && (n >? 10 * 1024 * 1024)) eqn:Hlarge;
        [discriminate|].
      destruct (negb (String.eqb _ ".pdf")); [discriminate|].
      destruct (negb (FileVisibility_eqb visibility PRIVATE)); [discriminate|].
      destruct (write_file _ _); [discriminate|].
      injection Hrun as <- _. cbn [File.size create_file fst].
      split; [reflexivity|].
      apply andb_false_iff in Hlarge. destruct Hlarge as [Hzero|Hwithin].
      * apply negb_false_iff, Z.eqb_eq in Hzero. lia.
      * destruct (Z.gtb_spec n (10 * 1024 * 1024)); [discriminate|lia].
    + assert (Hne : User.role current_user <> USER) by congruence.
      destruct (privileged_upload_raises file visibility current_user db Hne)
        as [_ Hraise].
      rewrite Hrun in Hraise. discriminate.
    + assert (Hne : User.role current_user <> USER) by congruence.
      destruct (privileged_upload_raises file visibility current_user db Hne)
        as [_ Hraise].
      rewrite Hrun in Hraise. discriminate.
  - intros Hrole Hlong.
    rewrite (upload_file_by_user file visibility current_user db Hrole).
    cbn zeta. rewrite Hdeclared.
    set (n := Z.of_nat (List.length (UploadFile.content file))) in *.
    destruct (Z.eqb_spec n 0) as [Hzero|_]; [lia|]. cbn [negb andb].
    destruct (Z.gtb_spec n (10 * 1024 * 1024)); [reflexivity|lia].
Qed.

End Service.

(** * The properties on the populated service *)

Lemma demo_db_primary_key : primary_key demo_db.
Proof.
  split; simpl;
    repeat (constructor; [simpl; intuition discriminate|]); constructor.
Qed.

(** The scenarios of the specification: a USER of department 1 sees a
    DEPARTMENT file of department 1 and not one of department 2; a MANAGER
    of department 1 sees a PRIVATE file of department 2 and may not delete
    it. *)
Example scenario_department_file :
  let actor := User.mk 1 "u" "h" USER 1 in
  let db dept := mkSession [] [File.mk 10 2 dept DEPARTMENT "p" "f" 0 0 0] in
  decision (can_access_file 10 actor (db 1)) = Allow
  /\ decision (can_access_file 10 actor (db 2)) = Deny Forbidden_Visibility.
Proof. split; reflexivity. Qed.

Example scenario_manager_asymmetry :
  let actor := User.mk 5 "m" "h" MANAGER 1 in
  let db := mkSession [] [File.mk 10 9 2 PRIVATE "p" "f" 0 0 0] in
  decision (can_access_file 10 actor db) = Allow
  /\ decision (can_delete_file 10 actor db) = Deny Forbidden_Department.
Proof. split; reflexivity. Qed.

Example scenario_listing :
  get_accessible_files demo_db user1 = [memo; notice]
  /\ get_accessible_files demo_db user2 = [diary; notice]
  /\ get_accessible_files demo_db manager1 = [memo; diary; notice].
Proof. repeat split. Qed.

Example scenario_user_upload :
  let upload v :=
    upload_file demo_getenv demo_int demo_splitext demo_lower demo_join
      demo_uuid 0 demo_write small_upload v user1 demo_db in
  decision (fst (upload PUBLIC)) = Deny Forbidden_Visibility
  /\ decision (fst (upload DEPARTMENT)) = Deny Forbidden_Visibility
  /\ decision (fst (upload PRIVATE)) = Allow
  /\ List.length (files (snd (upload PRIVATE))) = 4%nat.
Proof. repeat split. Qed.

(** C3 on the populated service, for [user1]. *)
Lemma listing_agrees_with_single_check_demo :
  primary_key demo_db
  /\ get_accessible_files demo_db user1 =
       filter (fun f => allows (can_access_file (File.id f) user1 demo_db))
         (files demo_db).
Proof.
  split.
  - exact demo_db_primary_key.
  - exact (proj1 (proj2 (listing_agrees_with_single_check demo_db user1))
             demo_db_primary_key).
Defined.

(** C5 on the populated service: [manager1] sets [user1] to USER, and may
    not set it to MANAGER. *)
Lemma update_user_role_endpoint_decision_demo :
  get_user_by_id demo_db 1 = Some user1
  /\ fst (update_user_role_endpoint 1 USER manager1 demo_db)
     = Ok (User.set_role user1 USER)
  /\ decision (fst (update_user_role_endpoint 1 MANAGER manager1 demo_db))
     = Deny Forbidden_RoleCeiling.
Proof.
  split; [reflexivity|]. split.
  - exact (proj1 (proj2 (proj2 (update_user_role_endpoint_decision
                                  demo_db 1 USER manager1 user1 eq_refl)
                           eq_refl))
             eq_refl eq_refl).
  - refine (proj1 (proj2 (proj2 (proj2 (proj2
              (update_user_role_endpoint_decision
                 demo_db 1 MANAGER manager1 user1 eq_refl) eq_refl)))
              eq_refl _)).
    discriminate.
Defined.

(** C6 as stated fails: [user1], a USER, asks for the user record 99, which
    is absent, and is refused with Forbidden-RoleFloor, not NotFound. *)
Lemma absent_user_asked_by_user :
  get_user_by_id demo_db 99 = None
  /\ User.role user1 = USER
  /\ decision (fst (get_user_info 99 user1 demo_db)) = Deny Forbidden_RoleFloor
  /\ decision (fst (get_user_info 99 user1 demo_db)) <> Deny NotFound
  /\ decision (fst (update_user_role_endpoint 99 USER user1 demo_db))
     = Deny Forbidden_RoleFloor.
Proof. repeat split; discriminate. Qed.

(** C8 on the populated service: [manager1] creates a user. *)
Lemma create_new_user_name_error_demo :
  require_role_or_higher MANAGER manager1 = Ok manager1
  /\ create_new_user demo_hash (UserCreate.mk "user3" USER 1 "password")
       manager1 demo_db
     = (Raise (NameError "get_user_by_username"), demo_db).
Proof.
  split.
  - reflexivity.
  - exact (proj2 (create_new_user_name_error demo_hash
                    (UserCreate.mk "user3" USER 1 "password")
                    manager1 demo_db eq_refl)).
Defined.

(** C9 as stated fails: [manager1] uploads sixty megabytes and is refused
    with 413, an [HTTPException], not with a missing attribute. *)
Lemma large_upload_by_manager :
  User.role manager1 = MANAGER
  /\ fst (upload_file demo_getenv demo_int demo_splitext demo_lower demo_join
            demo_uuid 0 demo_write large_upload PRIVATE manager1 demo_db)
     = Raise (HTTPException HTTP_413_REQUEST_ENTITY_TOO_LARGE
                "File size exceeds maximum allowed size for your role")
  /\ forall class_name attr,
       fst (upload_file demo_getenv demo_int demo_splitext demo_lower demo_join
              demo_uuid 0 demo_write large_upload PRIVATE manager1 demo_db)
       <> Raise (AttributeError class_name attr).
Proof. repeat split. discriminate. Qed.

(** C9 as amended, on the populated service: a small upload by [manager1]
    stops at the missing attribute, a large one at the size check. *)
Lemma privileged_upload_stops_before_visibility_demo :
  (User.role manager1 = MANAGER \/ User.role manager1 = ADMIN)
  /\ upload_file demo_getenv demo_int demo_splitext demo_lower demo_join
       demo_uuid 0 demo_write small_upload PUBLIC manager1 demo_db
     = (Raise (AttributeError "Settings" "ALLOWED_FILE_TYPES_MANAGER"), demo_db)
  /\ upload_file demo_getenv demo_int demo_splitext demo_lower demo_join
       demo_uuid 0 demo_write large_upload PUBLIC manager1 demo_db
     = (Raise (HTTPException HTTP_413_REQUEST_ENTITY_TOO_LARGE
                 "File size exceeds maximum allowed size for your role"),
        demo_db).
Proof.
  split; [left; reflexivity|]. split.
  - exact (proj1 (privileged_upload_stops_before_visibility
                    demo_getenv demo_int demo_splitext demo_lower demo_join
                    demo_uuid 0 demo_write small_upload PUBLIC manager1 demo_db
                    (or_introl eq_refl))).
  - refine (proj2 (proj1 (proj2 (privileged_upload_stops_before_visibility
                    demo_getenv demo_int demo_splitext demo_lower demo_join
                    demo_uuid 0 demo_write large_upload PUBLIC manager1 demo_db
                    (or_introl eq_refl)))
                    (60 * 1024 * 1024) eq_refl _ _));
      vm_compute; congruence.
Defined.

(** C4 on the populated service: [manager1] asks to upload a small
    DEPARTMENT file and is not let through. *)
Lemma privileged_create_is_refused_demo :
  (User.role manager1 = MANAGER \/ User.role manager1 = ADMIN)
  /\ check_visibility DEPARTMENT manager1 = Ok tt
  /\ upload_file demo_getenv demo_int demo_splitext demo_lower demo_join
       demo_uuid 0 demo_write small_upload DEPARTMENT manager1 demo_db
     = (Raise (AttributeError "Settings" "ALLOWED_FILE_TYPES_MANAGER"), demo_db).
Proof.
  split; [left; reflexivity|]. split; [reflexivity|].
  exact (proj2 (proj2 (proj2 (proj2
           (privileged_create_is_refused
              demo_getenv demo_int demo_splitext demo_lower demo_join
              demo_uuid 0 demo_write small_upload DEPARTMENT manager1 demo_db
              (or_introl eq_refl))))) eq_refl).
Defined.

(** C10 on the populated service: a download of [diary] is counted. *)
Lemma increment_download_count_frame_demo :
  primary_key demo_db
  /\ fst (increment_download_count demo_db 11) = true
  /\ files (snd (increment_download_count demo_db 11))
     = [memo; File.set_downloads_count diary 8; notice]
  /\ increment_download_count demo_db 99 = (false, demo_db).
Proof.
  split; [exact demo_db_primary_key|].
  split.
  - exact (proj1 (increment_download_count_frame demo_db 11 demo_db_primary_key)).
  - split; reflexivity.
Defined.

(** * The further properties on the populated service *)

(** X2: [manager1] passes the MANAGER floor, so [admin1] passes the USER
    floor. *)
Lemma require_role_or_higher_monotone_demo :
  require_role_or_higher MANAGER manager1 = Ok manager1
  /\ require_role_or_higher USER admin1 = Ok admin1.
Proof.
  split; [reflexivity|].
  refine (require_role_or_higher_monotone MANAGER USER manager1 admin1
            _ _ eq_refl); vm_compute; discriminate.
Defined.

(** X3: deleting [diary] keeps the keys of [demo_db] unique. *)
Lemma crud_keeps_primary_key_demo :
  primary_key demo_db /\ primary_key (snd (delete_file demo_db 11)).
Proof.
  split; [exact demo_db_primary_key|].
  exact (proj1 (proj2 (proj2 (proj2
           (crud_keeps_primary_key demo_hash 0 demo_db demo_db_primary_key))))
           11).
Defined.

(** X7: [user3] is created in [demo_db] and found by name. *)
Lemma create_user_lookup_demo :
  get_user_by_username demo_db "user3" = None
  /\ get_user_by_username
       (snd (create_user demo_hash demo_db
               (UserCreate.mk "user3" USER 1 "password"))) "user3"
     = Some (User.mk 5 "user3" "hash:password" USER 1).
Proof.
  split; [reflexivity|].
  exact (proj1 (proj2 (proj2
           (create_user_lookup demo_hash demo_db
              (UserCreate.mk "user3" USER 1 "password") eq_refl)))).
Defined.

(** X8: [user1] asks for a PUBLIC upload and is refused by the visibility
    rule. *)
Lemma user_upload_outcome_demo :
  User.role user1 = USER
  /\ upload_file demo_getenv demo_int demo_splitext demo_lower demo_join
       demo_uuid 0 demo_write small_upload PUBLIC user1 demo_db
     = (Raise (HTTPException HTTP_403_FORBIDDEN
                 "USER role can only create PRIVATE files"), demo_db).
Proof.
  split; [reflexivity|].
  exact (user_upload_outcome demo_getenv demo_int demo_splitext demo_lower
           demo_join demo_uuid 0 demo_write small_upload PUBLIC user1 demo_db
           eq_refl).
Defined.

(** X10: [user1] uploads [small_upload]; [user1] sees the record and
    [user2] does not. *)
Lemma uploader_reaches_upload_demo :
  let db' :=
    snd (upload_file demo_getenv demo_int demo_splitext demo_lower demo_join
           demo_uuid 0 demo_write small_upload PRIVATE user1 demo_db) in
  fst (upload_file demo_getenv demo_int demo_splitext demo_lower demo_join
         demo_uuid 0 demo_write small_upload PRIVATE user1 demo_db)
  = Ok uploaded_report
  /\ can_access_file 13 user1 db' = Ok uploaded_report
  /\ get_accessible_files db' user1 = [memo; notice; uploaded_report].
Proof.
  split; [reflexivity|].
  pose proof (uploader_reaches_upload demo_getenv demo_int demo_splitext
                demo_lower demo_join demo_uuid 0 demo_write
                small_upload PRIVATE user1 demo_db _ uploaded_report eq_refl)
    as (Hview & _ & Hlist & _).
  split; [exact Hview | exact Hlist].
Defined.

(** X13: [user1] owns [stray], a DEPARTMENT file of another department:
    [user1] may delete it and may not view it. *)
Lemma delete_without_view_demo :
  get_file_by_id stray_db 13 = Some stray
  /\ allows (can_delete_file 13 user1 stray_db) = true
  /\ allows (can_access_file 13 user1 stray_db) = false.
Proof.
  split; [reflexivity|].
  refine (proj2 (delete_without_view stray_db 13 user1 stray eq_refl)
            (conj eq_refl (conj eq_refl (conj eq_refl _)))).
  discriminate.
Defined.

(** X14: [manager1] lists the users of department 1. *)
Lemma user_listing_agrees_with_view_demo :
  primary_key demo_db
  /\ User.role manager1 <> USER
  /\ list_users manager1 demo_db = (Ok [user1; manager1; admin1], demo_db).
Proof.
  split; [exact demo_db_primary_key|].
  split; [discriminate|].
  refine (proj1 (user_listing_agrees_with_view demo_db manager1
                   demo_db_primary_key _)).
  discriminate.
Defined.

(** X15: [manager1] sets [admin1], of the same department, to USER. *)
Lemma only_admin_promotes_demo :
  User.role manager1 <> ADMIN
  /\ files (snd (update_user_role_endpoint 3 USER manager1 demo_db))
     = files demo_db.
Proof.
  split; [discriminate|].
  refine (proj1 (only_admin_promotes demo_db 3 USER manager1 _)).
  discriminate.
Defined.

(** X17: [manager1], of department 1, may not view [user2], of
    department 2. *)
Lemma get_user_info_decision_demo :
  get_user_by_id demo_db 4 = Some user2
  /\ decision (fst (get_user_info 4 manager1 demo_db))
     = Deny Forbidden_Department.
Proof.
  split; [reflexivity|].
  refine (proj2 (proj2 (proj2 (get_user_info_decision demo_db 4 manager1 user2
                                 eq_refl)) eq_refl) _).
  discriminate.
Defined.

(** X18: after [manager1] has set [admin1] to USER, the key 3 finds
    [admin1] with the role USER. *)
Lemma role_change_answer_is_stored_demo :
  fst (update_user_role_endpoint 3 USER manager1 demo_db)
  = Ok (User.set_role admin1 USER)
  /\ get_user_by_id (snd (update_user_role_endpoint 3 USER manager1 demo_db)) 3
     = Some (User.set_role admin1 USER).
Proof.
  split; [reflexivity|].
  exact (proj1 (role_change_answer_is_stored demo_db 3 USER manager1
                  (User.set_role admin1 USER) eq_refl)).
Defined.

(** X20: [user1] uploads three bytes; the record says three. *)
Lemma stored_size_within_limit_demo :
  UploadFile.size pdf_upload
  = Some (Z.of_nat (List.length (UploadFile.content pdf_upload)))
  /\ fst (upload_file demo_getenv demo_int demo_splitext demo_lower demo_join
            demo_uuid 0 demo_write pdf_upload PRIVATE user1 demo_db)
     = Ok uploaded_pdf
  /\ File.size uploaded_pdf = 3
  /\ File.size uploaded_pdf <= 10 * 1024 * 1024.
Proof.
  split; [reflexivity|]. split; [reflexivity|].
  exact (proj1 (stored_size_within_limit demo_getenv demo_int demo_splitext
                  demo_lower demo_join demo_uuid 0 demo_write
                  pdf_upload PRIVATE user1 demo_db eq_refl)
           uploaded_pdf _ eq_refl).
Defined.
